(** * Chit-fund payment ledger: the Mongoose model and its controllers

    A shallow embedding of [src/models/userPayment.js] (the schema, its
    validators, the [pre("save")] hook and the summary method) and of the
    handlers of [src/controllers/userPaymentsController.js], all but the
    list handler, with the properties of the ledger proved about them.

    Modelling conventions.
    - A JavaScript Number is a rational ([Q]): request bodies are JSON, so
      every number that enters is finite, and the arithmetic of the code
      ([+], [-], [/], comparisons) is taken exactly; the rounding of IEEE
      doubles is not modelled.  Numeric equality ([===], [includes]) is
      [Qeq], not Leibniz equality.
    - A Date is its time value, the number of milliseconds since the epoch
      ([Z]); invalid dates and the [TimeClip] range limit are left out.  The
      calendar functions follow ECMA-262 (Day, YearFromTime, MakeDay, ...);
      the host's time zone is the parameter [LocalTZA].
    - The collection is a finite map from document ids to documents.
      [timestamps], the [_id] of sub-documents, the setters and pattern
      validators of the identity fields and the unique index are not
      modelled, nor are the [summary] and [paidMonths] members of the
      response of a payment.
    - A request body is taken after parsing: month numbers and amounts are
      numbers, dates are valid, a status or payment method is one of its
      enum, the id is well formed. *)

From Stdlib Require Import ZArith QArith Qround Lia Bool List String.
From stdpp Require Import gmap strings.
From Stdlib Require Import DecimalString SetoidList.
Import ListNotations.

Local Open Scope Z_scope.

(** ** JavaScript numbers *)

Module JsNumber.

Definition Number : Type := Q.

(** [x < y], [x > y], [x >= y] and [x === y] on numbers. *)
Definition lt (x y : Number) : bool := negb (Qle_bool y x).
Definition gt (x y : Number) : bool := lt y x.
Definition ge (x y : Number) : bool := Qle_bool y x.
Definition strictEq (x y : Number) : bool := Qeq_bool x y.

(** ToBoolean on a number: only zero is falsy (there is no NaN here). *)
Definition truthy (x : Number) : bool := negb (Qeq_bool x 0).

(** ToBoolean on a possibly undefined number. *)
Definition truthyOpt (x : option Number) : bool :=
  match x with
  | Some v => truthy v
  | None => false
  end.

(** ToIntegerOrInfinity: truncation towards zero. *)
Definition ToIntegerOrInfinity (x : Number) : Z :=
  Z.quot (Qnum x) (Zpos (Qden x)).

(** [Array.prototype.includes] on numbers (SameValueZero). *)
Definition includes (l : list Number) (x : Number) : bool :=
  existsb (fun y => strictEq y x) l.

(** The length of an array, as a number. *)
Definition lengthOf {A : Type} (l : list A) : Number :=
  inject_Z (Z.of_nat (List.length l)).

End JsNumber.

(** ** JavaScript dates (ECMA-262, section "Date Objects") *)

Module JsDate.

Definition Date : Type := Z.

Definition msPerDay : Z := 86400000.

Definition Day (t : Z) : Z := t / msPerDay.
Definition TimeWithinDay (t : Z) : Z := t mod msPerDay.

Definition isLeapYear (y : Z) : bool :=
  ((y mod 4 =? 0) && negb (y mod 100 =? 0)) || (y mod 400 =? 0).

Definition DayFromYear (y : Z) : Z :=
  365 * (y - 1970) + (y - 1969) / 4 - (y - 1901) / 100 + (y - 1601) / 400.

(** The largest year [y] with [DayFromYear y <= Day t]: an estimate from
    the mean length of a year, corrected by at most one year. *)
Definition YearFromTime (t : Z) : Z :=
  let d := Day t in
  let y := 1970 + (d * 400) / 146097 in
  if d <? DayFromYear y then y - 1
  else if DayFromYear (y + 1) <=? d then y + 1
  else y.

Definition InLeapYear (t : Z) : Z :=
  if isLeapYear (YearFromTime t) then 1 else 0.

Definition DayWithinYear (t : Z) : Z := Day t - DayFromYear (YearFromTime t).

Definition MonthFromTime (t : Z) : Z :=
  let d := DayWithinYear t in
  let l := InLeapYear t in
  if d <? 31 then 0
  else if d <? 59 + l then 1
  else if d <? 90 + l then 2
  else if d <? 120 + l then 3
  else if d <? 151 + l then 4
  else if d <? 181 + l then 5
  else if d <? 212 + l then 6
  else if d <? 243 + l then 7
  else if d <? 273 + l then 8
  else if d <? 304 + l then 9
  else if d <? 334 + l then 10
  else 11.

Definition DateFromTime (t : Z) : Z :=
  let d := DayWithinYear t in
  let l := InLeapYear t in
  match MonthFromTime t with
  | 0 => d + 1
  | 1 => d - 30
  | 2 => d - 58 - l
  | 3 => d - 89 - l
  | 4 => d - 119 - l
  | 5 => d - 150 - l
  | 6 => d - 180 - l
  | 7 => d - 211 - l
  | 8 => d - 242 - l
  | 9 => d - 272 - l
  | 10 => d - 303 - l
  | _ => d - 333 - l
  end.

(** The number of days of year [y] before its month [mn] (0 to 11). *)
Definition DaysBeforeMonth (y mn : Z) : Z :=
  let l := if isLeapYear y then 1 else 0 in
  match mn with
  | 0 => 0
  | 1 => 31
  | 2 => 59 + l
  | 3 => 90 + l
  | 4 => 120 + l
  | 5 => 151 + l
  | 6 => 181 + l
  | 7 => 212 + l
  | 8 => 243 + l
  | 9 => 273 + l
  | 10 => 304 + l
  | _ => 334 + l
  end.

(** MakeDay: the month may lie outside 0..11 and carries into the year;
    the date may exceed the month and carries into the following days. *)
Definition MakeDay (year month date : Z) : Z :=
  let ym := year + month / 12 in
  let mn := month mod 12 in
  DayFromYear ym + DaysBeforeMonth ym mn + date - 1.

Definition MakeDate (day time : Z) : Z := day * msPerDay + time.

Section TimeZone.

(** The offset of local time from UTC, in milliseconds, at a time value
    ([isUTC = true]) or at a local time ([isUTC = false]). *)
Variable LocalTZA : Z -> bool -> Z.

Definition LocalTime (t : Z) : Z := t + LocalTZA t true.
Definition UTC (t : Z) : Z := t - LocalTZA t false.

(** [Date.prototype.getMonth]. *)
Definition getMonth (d : Date) : Z := MonthFromTime (LocalTime d).

(** [Date.prototype.setMonth(month)], as the new time value. *)
Definition setMonth (d : Date) (month : JsNumber.Number) : Date :=
  let t := LocalTime d in
  let m := JsNumber.ToIntegerOrInfinity month in
  let dt := DateFromTime t in
  let newDate := MakeDate (MakeDay (YearFromTime t) m dt) (TimeWithinDay t) in
  UTC newDate.

End TimeZone.

(** [Date.UTC(year, month - 1, date)] for four-digit years, to write
    dates down. *)
Definition ymd (year month date : Z) : Date :=
  MakeDate (MakeDay year (month - 1) date) 0.

(** ToBoolean on a possibly undefined date: an object is truthy. *)
Definition truthyDate (d : option Date) : bool :=
  match d with
  | Some _ => true
  | None => false
  end.

(** A host whose local time is UTC. *)
Definition utc : Z -> bool -> Z := fun _ _ => 0.

End JsDate.

(** ** JavaScript strings: [String.prototype.trim] (ASCII white space) *)

Module JsString.

Definition isWhiteSpace (c : Ascii.ascii) : bool :=
  let n := Ascii.nat_of_ascii c in
  (Nat.leb 9 n && Nat.leb n 13) || Nat.eqb n 32.

Fixpoint trimStartList (l : list Ascii.ascii) : list Ascii.ascii :=
  match l with
  | c :: l' => if isWhiteSpace c then trimStartList l' else l
  | [] => []
  end.

Definition trim (s : string) : string :=
  let l := trimStartList (list_ascii_of_string s) in
  string_of_list_ascii (rev (trimStartList (rev l))).

End JsString.

Import JsNumber JsDate.

(** ** The schema ([src/models/userPayment.js]) *)

(** [paymentRecordSchema.status]: enum paid, pending, overdue, partial. *)
Inductive RecordStatus : Type := paid | pending | overdue | partial.

(** [paymentRecordSchema.paymentMethod]. *)
Inductive PaymentMethod : Type := cash | bank_transfer | upi | cheque | card.

(** [userPaymentSchema.status]: enum active, completed, cancelled. *)
Inductive AccountStatus : Type := active | completed | cancelled.

Module PaymentRecord.

Record t : Type := mk {
  monthNumber : Number;
  amount : Number;
  paymentDate : Date;
  dueDate : Date;
  status : RecordStatus;
  paymentMethod : PaymentMethod;
  transactionId : option string;
  remarks : option string;
  lateFee : Number
}.

End PaymentRecord.

(** The identity fields of an account; they are carried along unchanged. *)
Record Identity : Type := mkIdentity {
  memberName : string;
  aadharNumber : string;
  phoneNumber : string;
  email : string
}.

Module UserPayment.

Record t : Type := mk {
  identity : Identity;
  chitAmount : Number;
  tenure : Number;
  monthlyPremium : option Number;
  startDate : Date;
  endDate : option Date;
  status : AccountStatus;
  paymentRecords : list PaymentRecord.t;
  (* Summary fields for easy querying *)
  totalPaidAmount : Number;
  pendingMonths : Number;
  completedMonths : Number;
  lastPaymentDate : option Date
}.

(** Assignments [this.field = v]. *)
Definition set_endDate (v : option Date) (a : t) : t :=
  mk (identity a) (chitAmount a) (tenure a) (monthlyPremium a) (startDate a)
     v (status a) (paymentRecords a) (totalPaidAmount a) (pendingMonths a)
     (completedMonths a) (lastPaymentDate a).

Definition set_monthlyPremium (v : option Number) (a : t) : t :=
  mk (identity a) (chitAmount a) (tenure a) v (startDate a)
     (endDate a) (status a) (paymentRecords a) (totalPaidAmount a)
     (pendingMonths a) (completedMonths a) (lastPaymentDate a).

Definition set_status (v : AccountStatus) (a : t) : t :=
  mk (identity a) (chitAmount a) (tenure a) (monthlyPremium a) (startDate a)
     (endDate a) v (paymentRecords a) (totalPaidAmount a) (pendingMonths a)
     (completedMonths a) (lastPaymentDate a).

Definition set_paymentRecords (v : list PaymentRecord.t) (a : t) : t :=
  mk (identity a) (chitAmount a) (tenure a) (monthlyPremium a) (startDate a)
     (endDate a) (status a) v (totalPaidAmount a) (pendingMonths a)
     (completedMonths a) (lastPaymentDate a).

Definition set_totalPaidAmount (v : Number) (a : t) : t :=
  mk (identity a) (chitAmount a) (tenure a) (monthlyPremium a) (startDate a)
     (endDate a) (status a) (paymentRecords a) v (pendingMonths a)
     (completedMonths a) (lastPaymentDate a).

Definition set_pendingMonths (v : Number) (a : t) : t :=
  mk (identity a) (chitAmount a) (tenure a) (monthlyPremium a) (startDate a)
     (endDate a) (status a) (paymentRecords a) (totalPaidAmount a) v
     (completedMonths a) (lastPaymentDate a).

Definition set_completedMonths (v : Number) (a : t) : t :=
  mk (identity a) (chitAmount a) (tenure a) (monthlyPremium a) (startDate a)
     (endDate a) (status a) (paymentRecords a) (totalPaidAmount a)
     (pendingMonths a) v (lastPaymentDate a).

Definition set_lastPaymentDate (v : option Date) (a : t) : t :=
  mk (identity a) (chitAmount a) (tenure a) (monthlyPremium a) (startDate a)
     (endDate a) (status a) (paymentRecords a) (totalPaidAmount a)
     (pendingMonths a) (completedMonths a) v.

Definition set_tenure (v : Number) (a : t) : t :=
  mk (identity a) (chitAmount a) v (monthlyPremium a) (startDate a)
     (endDate a) (status a) (paymentRecords a) (totalPaidAmount a)
     (pendingMonths a) (completedMonths a) (lastPaymentDate a).

End UserPayment.

Import PaymentRecord UserPayment.

Definition RecordStatus_eqb (x y : RecordStatus) : bool :=
  match x, y with
  | paid, paid | pending, pending | overdue, overdue | partial, partial => true
  | _, _ => false
  end.

(** ** Responses of the handlers *)

(** The [message] of a response, with the values spliced into it. *)
Inductive Message : Type :=
  | UserPaymentNotFound
      (* "User payment account not found" *)
  | InvalidMonthNumbers (invalidMonths : list Number) (tenure : Number)
      (* "Invalid month numbers: ${invalidMonths.join(", ")}. Must be between
         1 and ${tenure}" *)
  | MonthsAlreadyPaid (existingMonths : list Number)
      (* "Months already paid: ${existingMonths.join(", ")}" *)
  | InvalidMonthNumber (monthNumber : Number) (tenure : Number)
      (* "Invalid month number: ${monthNumber}. Must be between 1 and
         ${tenure}" *)
  | MonthAlreadyPaid (monthNumber : Number)
      (* "Month ${monthNumber} is already paid" *)
  | PaymentRecorded (months : nat)
      (* "Payment recorded successfully for ${n} month(s)" *)
  | BulkPaymentRecorded (months : nat)
      (* "Bulk payment recorded successfully for ${n} month(s)" *)
  | AccountCreated
      (* "User payment account created successfully" *)
  | AccountUpdated
      (* "User payment account updated successfully" *)
  | ErrorMessage
      (* [error.message] of a rejected [save] or update: schema validation *)
  .

(** [res.status(code).json({ success, message, data })]. *)
Record Response : Type := json {
  statusCode : Z;
  success : bool;
  message : Message;
  data : option UserPayment.t
}.

(** ** Request bodies *)

(** Body of [POST /:id/pay]. *)
Record PayBody : Type := mkPayBody {
  pay_monthNumbers : list Number;
  pay_amount : Number;
  pay_paymentDate : option Date;
  pay_paymentMethod : option PaymentMethod;
  pay_transactionId : option string;
  pay_remarks : option string
}.

(** One entry of [payments] in the body of [POST /:id/bulk-pay]. *)
Record BulkEntry : Type := mkBulkEntry {
  bulk_monthNumber : Number;
  bulk_amount : Number;
  bulk_paymentDate : option Date;
  bulk_paymentMethod : option PaymentMethod;
  bulk_transactionId : option string;
  bulk_remarks : option string;
  bulk_lateFee : option Number
}.

(** Body of [POST /]: the required fields may be missing. *)
Record CreateBody : Type := mkCreateBody {
  new_identity : Identity;
  new_chitAmount : option Number;
  new_tenure : option Number;
  new_monthlyPremium : option Number;
  new_startDate : option Date;
  new_endDate : option Date;
  new_status : option AccountStatus;
  new_paymentRecords : list PaymentRecord.t
}.

(** Body of [PUT /:id]: every path of the schema may be set. *)
Record UpdateBody : Type := mkUpdateBody {
  upd_identity : option Identity;
  upd_chitAmount : option Number;
  upd_tenure : option Number;
  upd_monthlyPremium : option Number;
  upd_startDate : option Date;
  upd_endDate : option Date;
  upd_status : option AccountStatus;
  upd_paymentRecords : option (list PaymentRecord.t);
  upd_totalPaidAmount : option Number;
  upd_pendingMonths : option Number;
  upd_completedMonths : option Number;
  upd_lastPaymentDate : option Date
}.

Section Model.

(** The time zone of the host. *)
Variable LocalTZA : Z -> bool -> Z.

(** *** Schema validation *)

Definition maxlength (n : nat) (s : option string) : bool :=
  match s with
  | Some v => Nat.leb (String.length v) n
  | None => true
  end.

(** The [min] and [maxlength] validators of [paymentRecordSchema]. *)
Definition validatePaymentRecord (record : PaymentRecord.t) : bool :=
  ge (monthNumber record) 1%Q
  && ge (amount record) 0%Q
  && maxlength 500 (remarks record)
  && ge (lateFee record) 0%Q.

(** The [min] validators of [userPaymentSchema] and those of its
    sub-documents. *)
Definition validate (doc : UserPayment.t) : bool :=
  ge (chitAmount doc) 1000%Q
  && ge (tenure doc) 1%Q
  && forallb validatePaymentRecord (paymentRecords doc).

(** [d.setMonth(d.getMonth() + n)] on a copy of [d]: the date [n] months
    after [d]. *)
Definition plusMonths (d : Date) (n : Number) : Date :=
  setMonth LocalTZA d (inject_Z (getMonth LocalTZA d) + n)%Q.

(** *** The pre-save middleware *)

(** [record.status === "paid" || record.status === "partial"]. *)
Definition isPaidRecord (record : PaymentRecord.t) : bool :=
  RecordStatus_eqb (PaymentRecord.status record) paid
  || RecordStatus_eqb (PaymentRecord.status record) partial.

(** [paidRecords.reduce((total, record) => total + record.amount, 0)]. *)
Definition sumAmounts (paidRecords : list PaymentRecord.t) : Number :=
  fold_left (fun total record => (total + amount record)%Q) paidRecords 0%Q.

(** [paidRecords.reduce((latest, record) => record.paymentDate >
    latest.paymentDate ? record : latest)], without an initial value. *)
Definition latestPayment (paidRecords : list PaymentRecord.t)
  : option PaymentRecord.t :=
  match paidRecords with
  | [] => None
  | first :: rest =>
      Some (fold_left
              (fun latest record =>
                 if paymentDate latest <? paymentDate record
                 then record else latest)
              rest first)
  end.

(** [userPaymentSchema.pre("save", ...)]. *)
Definition preSave (this : UserPayment.t) : UserPayment.t :=
  (* Calculate end date if not provided *)
  let this :=
    if truthyDate (Some (startDate this)) && truthy (tenure this)
       && negb (truthyDate (endDate this))
    then
      set_endDate (Some (plusMonths (startDate this) (tenure this))) this
    else this in
  (* Calculate monthly premium if not provided *)
  let this :=
    if truthy (chitAmount this) && truthy (tenure this)
       && negb (truthyOpt (monthlyPremium this))
    then set_monthlyPremium (Some (chitAmount this / tenure this)%Q) this
    else this in
  (* Update summary fields based on payment records *)
  let paidRecords := List.filter isPaidRecord (paymentRecords this) in
  let this := set_completedMonths (lengthOf paidRecords) this in
  let this :=
    set_pendingMonths (tenure this - completedMonths this)%Q this in
  let this := set_totalPaidAmount (sumAmounts paidRecords) this in
  (* Update last payment date *)
  let this :=
    match latestPayment paidRecords with
    | Some latest => set_lastPaymentDate (Some (paymentDate latest)) this
    | None => this
    end in
  (* Update status based on completion *)
  let this :=
    if ge (completedMonths this) (tenure this)
    then set_status completed this
    else this in
  this.

(** *** The collection *)

(** [doc.save()]: validation, then the pre-save hook, then the write.  A
    rejected save ([None]) writes nothing. *)
Definition save (db : gmap string UserPayment.t) (id : string)
    (doc : UserPayment.t) : option (gmap string UserPayment.t * UserPayment.t) :=
  if validate doc
  then let doc := preSave doc in Some (<[id := doc]> db, doc)
  else None.

(** *** The handlers ([src/controllers/userPaymentsController.js]) *)

(** [paymentDate ? new Date(paymentDate) : new Date()]. *)
Definition paymentDateOrNow (paymentDate : option Date) (now : Date) : Date :=
  match paymentDate with
  | Some d => d
  | None => now
  end.

(** [paymentMethod || "cash"]. *)
Definition paymentMethodOrCash (paymentMethod : option PaymentMethod)
  : PaymentMethod :=
  match paymentMethod with
  | Some m => m
  | None => cash
  end.

(** [lateFee || 0]. *)
Definition lateFeeOrZero (lateFee : option Number) : Number :=
  match lateFee with
  | Some fee => if truthy fee then fee else 0%Q
  | None => 0%Q
  end.

(** The due date of a month: [new Date(userPayment.startDate)] moved by
    [setMonth(getMonth() + monthNumber - 1)]. *)
Definition dueDateOf (userPayment : UserPayment.t) (monthNumber : Number)
  : Date :=
  setMonth LocalTZA (startDate userPayment)
    (inject_Z (getMonth LocalTZA (startDate userPayment)) + monthNumber - 1)%Q.

(** The record [recordPayment] builds for one requested month; the schema
    trims the strings and defaults [lateFee] to 0. *)
Definition singlePaymentRecord (userPayment : UserPayment.t) (now : Date)
    (body : PayBody) (monthNumber : Number) : PaymentRecord.t :=
  PaymentRecord.mk
    monthNumber
    (pay_amount body / lengthOf (pay_monthNumbers body))%Q
    (paymentDateOrNow (pay_paymentDate body) now)
    (dueDateOf userPayment monthNumber)
    paid
    (paymentMethodOrCash (pay_paymentMethod body))
    (option_map JsString.trim (pay_transactionId body))
    (option_map JsString.trim (pay_remarks body))
    0%Q.

(** [recordPayment]: [POST /api/user-payments/:id/pay]. *)
Definition recordPayment (now : Date) (db : gmap string UserPayment.t)
    (id : string) (body : PayBody) : gmap string UserPayment.t * Response :=
  match db !! id with
  | None => (db, json 404 false UserPaymentNotFound None)
  | Some userPayment =>
      let monthNumbers := pay_monthNumbers body in
      (* Validate month numbers *)
      let invalidMonths :=
        List.filter
          (fun month => lt month 1%Q || gt month (tenure userPayment))
          monthNumbers in
      if Nat.ltb 0 (List.length invalidMonths)
      then (db, json 400 false
                  (InvalidMonthNumbers invalidMonths (tenure userPayment))
                  None)
      else
        (* Check for duplicate month payments *)
        let existingMonths :=
          List.map monthNumber
            (List.filter
               (fun record =>
                  includes monthNumbers (monthNumber record)
                  && RecordStatus_eqb (PaymentRecord.status record) paid)
               (paymentRecords userPayment)) in
        if Nat.ltb 0 (List.length existingMonths)
        then (db, json 400 false (MonthsAlreadyPaid existingMonths) None)
        else
          (* Calculate due dates for each month *)
          let newRecords :=
            List.map (singlePaymentRecord userPayment now body)
              monthNumbers in
          (* Add new payment records *)
          let userPayment :=
            set_paymentRecords (paymentRecords userPayment ++ newRecords)
              userPayment in
          match save db id userPayment with
          | Some (db, updatedUserPayment) =>
              (db, json 200 true
                     (PaymentRecorded (List.length monthNumbers))
                     (Some updatedUserPayment))
          | None => (db, json 400 false ErrorMessage None)
          end
  end.

(** The loop [for (let payment of payments)] of [recordBulkPayment]: the
    message of the first entry that fails a check, if any. *)
Fixpoint validatePayments (userPayment : UserPayment.t)
    (payments : list BulkEntry) : option Message :=
  match payments with
  | [] => None
  | payment :: rest =>
      if lt (bulk_monthNumber payment) 1%Q
         || gt (bulk_monthNumber payment) (tenure userPayment)
      then Some (InvalidMonthNumber (bulk_monthNumber payment)
                   (tenure userPayment))
      else
        let existingPayment :=
          List.find
            (fun record =>
               strictEq (monthNumber record) (bulk_monthNumber payment)
               && RecordStatus_eqb (PaymentRecord.status record) paid)
            (paymentRecords userPayment) in
        match existingPayment with
        | Some _ => Some (MonthAlreadyPaid (bulk_monthNumber payment))
        | None => validatePayments userPayment rest
        end
  end.

(** The record [recordBulkPayment] builds for one entry. *)
Definition bulkPaymentRecord (userPayment : UserPayment.t) (now : Date)
    (payment : BulkEntry) : PaymentRecord.t :=
  PaymentRecord.mk
    (bulk_monthNumber payment)
    (bulk_amount payment)
    (paymentDateOrNow (bulk_paymentDate payment) now)
    (dueDateOf userPayment (bulk_monthNumber payment))
    paid
    (paymentMethodOrCash (bulk_paymentMethod payment))
    (option_map JsString.trim (bulk_transactionId payment))
    (option_map JsString.trim (bulk_remarks payment))
    (lateFeeOrZero (bulk_lateFee payment)).

(** [recordBulkPayment]: [POST /api/user-payments/:id/bulk-pay]. *)
Definition recordBulkPayment (now : Date) (db : gmap string UserPayment.t)
    (id : string) (payments : list BulkEntry)
  : gmap string UserPayment.t * Response :=
  match db !! id with
  | None => (db, json 404 false UserPaymentNotFound None)
  | Some userPayment =>
      (* Validate each payment *)
      match validatePayments userPayment payments with
      | Some failure => (db, json 400 false failure None)
      | None =>
          (* Create payment records with due dates *)
          let newRecords :=
            List.map (bulkPaymentRecord userPayment now) payments in
          let userPayment :=
            set_paymentRecords (paymentRecords userPayment ++ newRecords)
              userPayment in
          match save db id userPayment with
          | Some (db, updatedUserPayment) =>
              (db, json 200 true
                     (BulkPaymentRecorded (List.length payments))
                     (Some updatedUserPayment))
          | None => (db, json 400 false ErrorMessage None)
          end
      end
  end.

(** [createUserPayment]: [POST /api/user-payments].  [newId] is the id
    Mongoose gives the new document. *)
Definition createUserPayment (newId : string)
    (db : gmap string UserPayment.t) (data : CreateBody)
  : gmap string UserPayment.t * Response :=
  (* Calculate derived fields before creating the document *)
  let endDate :=
    match new_startDate data, new_tenure data with
    | Some startDate, Some tenure =>
        if truthy tenure && negb (truthyDate (new_endDate data))
        then Some (plusMonths startDate tenure)
        else new_endDate data
    | _, _ => new_endDate data
    end in
  let monthlyPremium :=
    match new_chitAmount data, new_tenure data with
    | Some chitAmount, Some tenure =>
        if truthy chitAmount && truthy tenure
           && negb (truthyOpt (new_monthlyPremium data))
        then Some (chitAmount / tenure)%Q
        else new_monthlyPremium data
    | _, _ => new_monthlyPremium data
    end in
  (* new UserPayment(data): the required paths must be there *)
  match new_chitAmount data, new_tenure data, new_startDate data with
  | Some chitAmount, Some tenure, Some startDate =>
      let userPayment :=
        UserPayment.mk
          (new_identity data) chitAmount tenure monthlyPremium startDate
          endDate
          (match new_status data with Some s => s | None => active end)
          (new_paymentRecords data)
          (* Set default values for summary fields *)
          0%Q tenure 0%Q None in
      match save db newId userPayment with
      | Some (db, savedUserPayment) =>
          (db, json 201 true AccountCreated (Some savedUserPayment))
      | None => (db, json 400 false ErrorMessage None)
      end
  | _, _, _ => (db, json 400 false ErrorMessage None)
  end.

(** The update validators ([runValidators: true]) on the paths the body
    sets. *)
Definition validateUpdate (body : UpdateBody) : bool :=
  match upd_chitAmount body with Some v => ge v 1000%Q | None => true end
  && match upd_tenure body with Some v => ge v 1%Q | None => true end
  && match upd_paymentRecords body with
     | Some records => forallb validatePaymentRecord records
     | None => true
     end.

(** The document after [$set] of the paths the body sets. *)
Definition applyUpdate (body : UpdateBody) (doc : UserPayment.t)
  : UserPayment.t :=
  UserPayment.mk
    (default (identity doc) (upd_identity body))
    (default (chitAmount doc) (upd_chitAmount body))
    (default (tenure doc) (upd_tenure body))
    (match upd_monthlyPremium body with
     | Some v => Some v | None => monthlyPremium doc end)
    (default (startDate doc) (upd_startDate body))
    (match upd_endDate body with
     | Some v => Some v | None => endDate doc end)
    (default (UserPayment.status doc) (upd_status body))
    (default (paymentRecords doc) (upd_paymentRecords body))
    (default (totalPaidAmount doc) (upd_totalPaidAmount body))
    (default (pendingMonths doc) (upd_pendingMonths body))
    (default (completedMonths doc) (upd_completedMonths body))
    (match upd_lastPaymentDate body with
     | Some v => Some v | None => lastPaymentDate doc end).

(** [updateUserPayment]: [PUT /api/user-payments/:id], through
    [findByIdAndUpdate(id, body, { new: true, runValidators: true })]; no
    save middleware runs on this path. *)
Definition updateUserPayment (db : gmap string UserPayment.t) (id : string)
    (body : UpdateBody) : gmap string UserPayment.t * Response :=
  if validateUpdate body
  then
    match db !! id with
    | None => (db, json 404 false UserPaymentNotFound None)
    | Some doc =>
        let userPayment := applyUpdate body doc in
        (<[id := userPayment]> db,
         json 200 true AccountUpdated (Some userPayment))
    end
  else (db, json 400 false ErrorMessage None).

End Model.

(** * Vocabulary of the statements *)

Section Vocabulary.

Variable LocalTZA : Z -> bool -> Z.

(** The settled records of an account: those the pass counts. *)
Definition settled (this : UserPayment.t) : list PaymentRecord.t :=
  List.filter isPaidRecord (paymentRecords this).

Definition derivedEndDate (this : UserPayment.t) : option Date :=
  if truthy (tenure this) && negb (truthyDate (endDate this))
  then Some (plusMonths LocalTZA (startDate this) (tenure this))
  else endDate this.

Definition derivedMonthlyPremium (this : UserPayment.t) : option Number :=
  if truthy (chitAmount this) && truthy (tenure this)
     && negb (truthyOpt (monthlyPremium this))
  then Some (chitAmount this / tenure this)%Q
  else monthlyPremium this.

Definition derivedLastPaymentDate (this : UserPayment.t) : option Date :=
  match latestPayment (settled this) with
  | Some latest => Some (paymentDate latest)
  | None => lastPaymentDate this
  end.

Definition derivedStatus (this : UserPayment.t) : AccountStatus :=
  if ge (lengthOf (settled this)) (tenure this)
  then completed
  else UserPayment.status this.


(** A requested month number is in range: [1 <= m <= tenure]. *)
Definition inRange (userPayment : UserPayment.t) (m : Number) : Prop :=
  (1 <= m)%Q /\ (m <= tenure userPayment)%Q.



(** The document after [paymentRecords.push(...newRecords)]. *)
Definition pushRecords (newRecords : list PaymentRecord.t)
    (userPayment : UserPayment.t) : UserPayment.t :=
  set_paymentRecords (paymentRecords userPayment ++ newRecords) userPayment.

(** One request on the payment-application path, with the clock at the
    time it is served. *)
Inductive PaymentApplication : Type :=
  | Single (now : Date) (id : string) (body : PayBody)
  | Bulk (now : Date) (id : string) (payments : list BulkEntry).

Definition applyPayment (db : gmap string UserPayment.t)
    (p : PaymentApplication) : gmap string UserPayment.t * Response :=
  match p with
  | Single now id body => recordPayment LocalTZA now db id body
  | Bulk now id payments => recordBulkPayment LocalTZA now db id payments
  end.

(** The account a payment application addresses. *)
Definition accountOf (p : PaymentApplication) : string :=
  match p with
  | Single _ id _ | Bulk _ id _ => id
  end.

(** The collection after a sequence of payment applications. *)
Definition applyPayments (db : gmap string UserPayment.t)
    (ps : list PaymentApplication) : gmap string UserPayment.t :=
  fold_left (fun db p => fst (applyPayment db p)) ps db.

(** A document is as a derivation pass leaves it. *)
Definition derived (doc : UserPayment.t) : Prop :=
  preSave LocalTZA doc = doc.

End Vocabulary.

(** The error taxonomy of the design (section 7): the kind of error a
    message of a failed request reports. *)
Inductive ErrorKind : Type := ValidationError | ConflictError | NotFoundError.

Definition errorKind (m : Message) : option ErrorKind :=
  match m with
  | InvalidMonthNumbers _ _ | InvalidMonthNumber _ _ | ErrorMessage =>
      Some ValidationError
  | MonthsAlreadyPaid _ | MonthAlreadyPaid _ => Some ConflictError
  | UserPaymentNotFound => Some NotFoundError
  | PaymentRecorded _ | BulkPaymentRecorded _ | AccountCreated
  | AccountUpdated => None
  end.

(** ** Sample data *)

Definition asha : Identity :=
  mkIdentity "Asha Rao" "123456789012" "9876543210" "asha@example.com".

(** A paid record of 1000 for a month, due on [due], paid on [paidOn]. *)
Definition paidRecord (month : Number) (due paidOn : Date) : PaymentRecord.t :=
  PaymentRecord.mk month 1000%Q paidOn due paid cash None None 0%Q.

(** An account of 12000 over 12 months from 2024-01-01, as [save] leaves it
    after creation. *)
Definition freshAccount : UserPayment.t :=
  UserPayment.mk asha 12000%Q 12%Q (Some (12000 / 12)%Q) (ymd 2024 1 1)
    (Some (ymd 2025 1 1)) active [] 0%Q (12 - 0)%Q 0%Q None.

(** The same account with month 1 paid on 2024-01-05. *)
Definition januaryPaidAccount : UserPayment.t :=
  preSave utc
    (pushRecords [paidRecord 1%Q (ymd 2024 1 1) (ymd 2024 1 5)] freshAccount).


(** A request for month 13 of an account of 12 months. *)
Definition thirteenOnly : PayBody :=
  mkPayBody [13%Q] 1000%Q None None None None.


(** A request for month 1 alone. *)
Definition januaryOnly : PayBody :=
  mkPayBody [1%Q] 1000%Q None None None None.

(** Two entries of one batch for month 2, of 700 and of 300 with a late fee
    of 50. *)
Definition februaryFirst : BulkEntry :=
  mkBulkEntry 2%Q 700%Q None None None None None.


(** A body of [PUT /:id] that sets [tenure] to 24 and nothing else. *)
Definition tenureTwentyFour : UpdateBody :=
  mkUpdateBody None None (Some 24%Q) None None None None None None None None
    None.


(** A cancelled account of one month, with that month paid. *)
Definition cancelledPaidUpAccount : UserPayment.t :=
  UserPayment.mk asha 12000%Q 1%Q (Some 12000%Q) (ymd 2024 1 1)
    (Some (ymd 2024 2 1)) cancelled
    [paidRecord 1%Q (ymd 2024 1 1) (ymd 2024 1 5)]
    12000%Q 0%Q 1%Q (Some (ymd 2024 1 5)).

(** * The read handlers, the delete handler and the summary *)

(** ** [Number.prototype.toFixed] *)

Module JsFormat.

(** The decimal digits of a natural number. *)
Definition digits (n : Z) : string :=
  NilZero.string_of_uint (N.to_uint (Z.to_N n)).

Fixpoint zeros (k : nat) : string :=
  match k with
  | O => EmptyString
  | S k' => (String.append "0" (zeros k'))%string
  end.

(** [x.toFixed(f)] for a finite [x] below [10^21] in absolute value
    ([None] above, where the result is in exponent notation): the integer
    [n] nearest to [x * 10^f], the larger one on a tie, written with [f]
    digits after the point. *)
Definition toFixed (f : nat) (x : Number) : option string :=
  let s := if lt x 0%Q then "-"%string else EmptyString in
  let x := if lt x 0%Q then (- x)%Q else x in
  if ge x (inject_Z (10 ^ 21))
  then None
  else
    let n := Qfloor (x * inject_Z (10 ^ Z.of_nat f) + (1 # 2))%Q in
    let m := digits n in
    let m :=
      if Nat.eqb f 0 then m
      else
        let k := String.length m in
        let m := if Nat.leb k f then (zeros (f + 1 - k) ++ m)%string else m in
        let k := String.length m in
        (String.substring 0 (k - f) m ++ "." ++ String.substring (k - f) f m)%string in
    Some (s ++ m)%string.

End JsFormat.

(** ** The summary ([userPaymentSchema.methods.getPaymentSummary]) *)

Module PaymentSummary.

Record t : Type := mk {
  totalMonths : Number;
  completedMonths : Number;
  pendingMonths : Number;
  totalPaidAmount : Number;
  (* [None] is NaN: the monthly premium is undefined *)
  totalDueAmount : option Number;
  (* [None]: a percentage of 10^21 or more *)
  completionPercentage : option string;
  nextDueMonth : Number;
  nextDueAmount : option Number
}.

End PaymentSummary.

(** [((completedMonths / tenure) * 100).toFixed(2)]; a division by zero
    gives NaN or an infinity, which [toFixed] prints by name. *)
Definition completionPercentageOf (completedMonths tenure : Number)
  : option string :=
  if Qeq_bool tenure 0
  then Some (if Qeq_bool completedMonths 0 then "NaN"
             else if lt 0%Q completedMonths then "Infinity"
             else "-Infinity")%string
  else JsFormat.toFixed 2 (completedMonths / tenure * 100)%Q.

(** [getPaymentSummary]: it reads the cached fields only (the records it
    filters are not used). *)
Definition getPaymentSummary (this : UserPayment.t) : PaymentSummary.t :=
  PaymentSummary.mk
    (tenure this)
    (completedMonths this)
    (pendingMonths this)
    (totalPaidAmount this)
    (match monthlyPremium this with
     | Some premium => Some (tenure this * premium - totalPaidAmount this)%Q
     | None => None
     end)
    (completionPercentageOf (completedMonths this) (tenure this))
    (completedMonths this + 1)%Q
    (monthlyPremium this).

(** ** [Array.prototype.sort] with a comparator *)

(** [x] goes before the first element it does not compare greater than:
    with [sortBy] below this is the stable sort. *)
Fixpoint insertBy {A : Type} (comparator : A -> A -> Number) (x : A)
    (l : list A) : list A :=
  match l with
  | [] => [x]
  | y :: l' =>
      if lt 0%Q (comparator x y)
      then y :: insertBy comparator x l'
      else x :: l
  end.

Definition sortBy {A : Type} (comparator : A -> A -> Number) (l : list A)
  : list A :=
  fold_right (insertBy comparator) [] l.

(** ** Replies of the read and delete handlers *)

Inductive ReplyMessage : Type :=
  | AccountNotFound
      (* "User payment account not found" *)
  | AccountNotFoundForAadhar
      (* "User payment account not found for this Aadhar number" *)
  | AccountDeleted
      (* "User payment account deleted successfully" *)
  .

(** [res.status(code).json({ success, message, ... })] with a payload. *)
Record Reply (A : Type) : Type := mkReply {
  reply_status : Z;
  reply_success : bool;
  reply_message : option ReplyMessage;
  reply_payload : option A
}.

Arguments mkReply {A} _ _ _ _.
Arguments reply_status {A} _.
Arguments reply_success {A} _.
Arguments reply_message {A} _.
Arguments reply_payload {A} _.

(** [{ data: userPayment, summary: paymentSummary }]. *)
Record AccountView : Type := mkAccountView {
  view_data : UserPayment.t;
  view_summary : PaymentSummary.t
}.

(** The [data] of [getPaymentHistory]. *)
Record PaymentHistory : Type := mkPaymentHistory {
  paidPayments : list PaymentRecord.t;
  pendingPayments : list PaymentRecord.t;
  totalPaid : nat;
  totalPending : nat;
  history_summary : PaymentSummary.t
}.

(** [getUserPaymentById]: [GET /api/user-payments/:id]. *)
Definition getUserPaymentById (db : gmap string UserPayment.t) (id : string)
  : Reply AccountView :=
  match db !! id with
  | None => mkReply 404 false (Some AccountNotFound) None
  | Some userPayment =>
      let paymentSummary := getPaymentSummary userPayment in
      mkReply 200 true None (Some (mkAccountView userPayment paymentSummary))
  end.

(** [UserPayment.findOne({ aadharNumber })]: a stored document with this
    Aadhar number, if there is one (the first in the order the map lists
    them). *)
Definition findByAadhar (db : gmap string UserPayment.t)
    (number : string) : option UserPayment.t :=
  match List.find
          (fun entry => String.eqb (aadharNumber (identity (snd entry))) number)
          (map_to_list db) with
  | Some entry => Some (snd entry)
  | None => None
  end.

(** [getUserPaymentByAadhar]: [GET /api/user-payments/aadhar/:aadharNumber]. *)
Definition getUserPaymentByAadhar (db : gmap string UserPayment.t)
    (number : string) : Reply AccountView :=
  match findByAadhar db number with
  | None => mkReply 404 false (Some AccountNotFoundForAadhar) None
  | Some userPayment =>
      let paymentSummary := getPaymentSummary userPayment in
      mkReply 200 true None (Some (mkAccountView userPayment paymentSummary))
  end.

(** [record.status === "pending" || record.status === "overdue"]. *)
Definition isPendingRecord (record : PaymentRecord.t) : bool :=
  RecordStatus_eqb (PaymentRecord.status record) pending
  || RecordStatus_eqb (PaymentRecord.status record) overdue.

(** [getPaymentHistory]: [GET /api/user-payments/:id/payment-history]. *)
Definition getPaymentHistory (db : gmap string UserPayment.t) (id : string)
  : Reply PaymentHistory :=
  match db !! id with
  | None => mkReply 404 false (Some AccountNotFound) None
  | Some userPayment =>
      let paidPayments :=
        sortBy
          (fun a b => inject_Z (paymentDate b - paymentDate a))
          (List.filter isPaidRecord (paymentRecords userPayment)) in
      let pendingPayments :=
        sortBy
          (fun a b => (monthNumber a - monthNumber b)%Q)
          (List.filter isPendingRecord (paymentRecords userPayment)) in
      mkReply 200 true None
        (Some (mkPaymentHistory paidPayments pendingPayments
                 (List.length paidPayments) (List.length pendingPayments)
                 (getPaymentSummary userPayment)))
  end.

(** [deleteUserPayment]: [DELETE /api/user-payments/:id]. *)
Definition deleteUserPayment (db : gmap string UserPayment.t) (id : string)
  : gmap string UserPayment.t * Reply UserPayment.t :=
  match db !! id with
  | None => (db, mkReply 404 false (Some AccountNotFound) None)
  | Some userPayment =>
      (delete id db, mkReply 200 true (Some AccountDeleted) (Some userPayment))
  end.

(** ** Vocabulary for the whole of the handlers *)

Section Requests.

Variable LocalTZA : Z -> bool -> Z.

(** A request that can change the collection. *)
Inductive Mutation : Type :=
  | Create (newId : string) (data : CreateBody)
  | Pay (now : Date) (id : string) (body : PayBody)
  | BulkPay (now : Date) (id : string) (payments : list BulkEntry)
  | Update (id : string) (body : UpdateBody)
  | Delete (id : string).

(** The collection after a request. *)
Definition mutate (db : gmap string UserPayment.t) (m : Mutation)
  : gmap string UserPayment.t :=
  match m with
  | Create newId data => fst (createUserPayment LocalTZA newId db data)
  | Pay now id body => fst (recordPayment LocalTZA now db id body)
  | BulkPay now id payments =>
      fst (recordBulkPayment LocalTZA now db id payments)
  | Update id body => fst (updateUserPayment db id body)
  | Delete id => fst (deleteUserPayment db id)
  end.

Definition mutateAll (db : gmap string UserPayment.t) (ms : list Mutation)
  : gmap string UserPayment.t :=
  fold_left mutate ms db.




End Requests.


(** The host keeps one offset from UTC at all times. *)
Definition fixedOffset (LocalTZA : Z -> bool -> Z) : Prop :=
  exists offset, forall t isUTC, LocalTZA t isUTC = offset.


(** A request that leaves the status of every stored account to the
    derivation pass: a payment, or an update that does not set [status]. *)
Definition keepsStatus (m : Mutation) : bool :=
  match m with
  | Pay _ _ _ | BulkPay _ _ _ => true
  | Update _ body =>
      match upd_status body with
      | Some _ => false
      | None => true
      end
  | Create _ _ | Delete _ => false
  end.

(** ** More sample data *)

(** The body that enrols Asha: 12000 over 12 months from 2024-01-01. *)
Definition ashaEnrolment : CreateBody :=
  mkCreateBody asha (Some 12000%Q) (Some 12%Q) None (Some (ymd 2024 1 1))
    None None [].

(** The one-month account of [cancelledPaidUpAccount] as a save leaves it:
    completed. *)
Definition paidUpAccount : UserPayment.t := preSave utc cancelledPaidUpAccount.

(** A request for month 2 alone. *)
Definition februaryOnly : PayBody :=
  mkPayBody [2%Q] 1000%Q None None None None.


(** An update that raises the tenure, then a payment. *)
Definition raiseTenureThenPay : list Mutation :=
  [Update "acc1" tenureTwentyFour;
   Pay (ymd 2024 3 1) "acc1" februaryOnly].

(** * Properties *)

(** ** The calendar *)

Lemma YearFromTime_lower (t : Z) :
  JsDate.DayFromYear (JsDate.YearFromTime t) <= JsDate.Day t.
Proof.
  unfold JsDate.YearFromTime.
  set (d := JsDate.Day t). unfold JsDate.DayFromYear.
  repeat match goal with |- context [ ?a <? ?b ] => destruct (Z.ltb_spec a b) end;
  repeat match goal with |- context [ ?a <=? ?b ] => destruct (Z.leb_spec a b) end;
  Z.div_mod_to_equations; lia.
Qed.

Lemma YearFromTime_upper (t : Z) :
  JsDate.Day t < JsDate.DayFromYear (JsDate.YearFromTime t + 1).
Proof.
  unfold JsDate.YearFromTime.
  set (d := JsDate.Day t). unfold JsDate.DayFromYear.
  repeat match goal with |- context [ ?a <? ?b ] => destruct (Z.ltb_spec a b) end;
  repeat match goal with |- context [ ?a <=? ?b ] => destruct (Z.leb_spec a b) end;
  Z.div_mod_to_equations; lia.
Qed.

(** Truncation does not depend on the fraction that writes a number. *)
Lemma ToIntegerOrInfinity_Qeq (x y : Number) :
  (x == y)%Q -> ToIntegerOrInfinity x = ToIntegerOrInfinity y.
Proof.
  destruct x as [a b], y as [c d]. unfold Qeq, ToIntegerOrInfinity. simpl.
  intros H.
  rewrite <- (Z.quot_mul_cancel_r a (Z.pos b) (Z.pos d)) by lia.
  rewrite <- (Z.quot_mul_cancel_r c (Z.pos d) (Z.pos b)) by lia.
  rewrite H. f_equal. lia.
Qed.

Lemma ToIntegerOrInfinity_inject_Z (k : Z) :
  ToIntegerOrInfinity (inject_Z k) = k.
Proof. unfold ToIntegerOrInfinity. simpl. apply Z.quot_1_r. Qed.

(** Reduce the projections and assignments of a document, nothing else. *)
Ltac simpl_doc :=
  cbn [identity chitAmount tenure monthlyPremium startDate endDate
       UserPayment.status paymentRecords totalPaidAmount pendingMonths
       completedMonths lastPaymentDate
       set_endDate set_monthlyPremium set_status set_paymentRecords
       set_totalPaidAmount set_pendingMonths set_completedMonths
       set_lastPaymentDate set_tenure truthyDate andb] in *.

Section Properties.

Variable LocalTZA : Z -> bool -> Z.

(** ** The derivation pass, field by field *)

Lemma preSave_eq (this : UserPayment.t) :
  preSave LocalTZA this =
  UserPayment.mk
    (identity this) (chitAmount this) (tenure this)
    (derivedMonthlyPremium this) (startDate this)
    (derivedEndDate LocalTZA this)
    (derivedStatus this) (paymentRecords this)
    (sumAmounts (settled this))
    (tenure this - lengthOf (settled this))%Q
    (lengthOf (settled this))
    (derivedLastPaymentDate this).
Proof.
  destruct this as [i c t mp sd ed st rs tp pm cm lp].
  unfold preSave, derivedMonthlyPremium, derivedEndDate, derivedStatus,
    derivedLastPaymentDate, settled.
  simpl_doc.
  destruct (truthy t && negb (truthyDate ed)); simpl_doc;
    destruct (truthy c && truthy t && negb (truthyOpt mp)); simpl_doc;
    destruct (latestPayment (List.filter isPaidRecord rs)); simpl_doc;
    destruct (ge (lengthOf (List.filter isPaidRecord rs)) t); reflexivity.
Qed.


Lemma preSave_tenure (this : UserPayment.t) :
  tenure (preSave LocalTZA this) = tenure this.
Proof. rewrite preSave_eq. reflexivity. Qed.

Lemma preSave_completedMonths (this : UserPayment.t) :
  completedMonths (preSave LocalTZA this) = lengthOf (settled this).
Proof. rewrite preSave_eq. reflexivity. Qed.

Lemma preSave_status (this : UserPayment.t) :
  UserPayment.status (preSave LocalTZA this) = derivedStatus this.
Proof. rewrite preSave_eq. reflexivity. Qed.

(** The pass is idempotent on the whole document. *)
Lemma preSave_idempotent (this : UserPayment.t) :
  preSave LocalTZA (preSave LocalTZA this) = preSave LocalTZA this.
Proof.
  rewrite (preSave_eq (preSave LocalTZA this)), !preSave_eq.
  unfold derivedMonthlyPremium, derivedEndDate, derivedStatus,
    derivedLastPaymentDate, settled.
  simpl_doc.
  f_equal.
  - destruct (truthy (chitAmount this) && truthy (tenure this)
              && negb (truthyOpt (monthlyPremium this))) eqn:E.
    + match goal with
      | |- context [if ?b then _ else _] => destruct b
      end; reflexivity.
    + rewrite E. reflexivity.
  - destruct (truthy (tenure this) && negb (truthyDate (endDate this))) eqn:E.
    + simpl. rewrite andb_false_r. reflexivity.
    + rewrite E. reflexivity.
  - destruct (ge _ _); reflexivity.
  - destruct (latestPayment _); reflexivity.
Qed.

(** ** Sums *)



(** ** C2, C3, C9, C10: what a derivation pass leaves behind *)



(** C10.  A cancelled account whose settled records reach the tenure is
    marked completed by the next derivation pass: the pass does not keep a
    status of cancelled. *)
Theorem cancelled_overwritten_on_completion (this : UserPayment.t) :
  UserPayment.status this = cancelled ->
  (tenure this <= lengthOf (settled this))%Q ->
  UserPayment.status (preSave LocalTZA this) = completed.
Proof.
  intros _ Hreach. rewrite preSave_status. unfold derivedStatus, ge.
  apply Qle_bool_iff in Hreach. rewrite Hreach. reflexivity.
Qed.

Lemma truthy_false_iff (x : Number) : truthy x = false <-> (x == 0)%Q.
Proof.
  unfold truthy. rewrite negb_false_iff. apply Qeq_bool_iff.
Qed.

Lemma truthy_true_iff (x : Number) : truthy x = true <-> ~ (x == 0)%Q.
Proof.
  rewrite <- truthy_false_iff. destruct (truthy x); split; congruence.
Qed.

Lemma preSave_keeps_endDate (this : UserPayment.t) (d : Date) :
  endDate this = Some d -> endDate (preSave LocalTZA this) = Some d.
Proof.
  intros H. rewrite preSave_eq. simpl_doc. unfold derivedEndDate.
  rewrite H. simpl. rewrite andb_false_r. reflexivity.
Qed.

Lemma preSave_keeps_monthlyPremium (this : UserPayment.t) (v : Number) :
  monthlyPremium this = Some v -> ~ (v == 0)%Q ->
  monthlyPremium (preSave LocalTZA this) = Some v.
Proof.
  intros H Hv. apply truthy_true_iff in Hv.
  rewrite preSave_eq. simpl_doc. unfold derivedMonthlyPremium.
  rewrite H. simpl. rewrite Hv. simpl. rewrite andb_false_r. reflexivity.
Qed.


(** ** C4, C5: the checks of [recordPayment] *)

Lemma lt_true_iff (x y : Number) : lt x y = true <-> (x < y)%Q.
Proof.
  unfold lt. rewrite negb_true_iff, <- not_true_iff_false, Qle_bool_iff.
  split; [apply Qnot_le_lt | apply Qlt_not_le].
Qed.

Lemma outOfRange_true_iff (userPayment : UserPayment.t) (m : Number) :
  lt m 1%Q || gt m (tenure userPayment) = true <-> ~ inRange userPayment m.
Proof.
  unfold gt, inRange. rewrite orb_true_iff, !lt_true_iff. split.
  - intros [H | H] [H1 H2]; eapply Qlt_not_le; eauto.
  - intros H. destruct (Qlt_le_dec m 1) as [|H1]; [auto|].
    destruct (Qlt_le_dec (tenure userPayment) m) as [|H2]; [auto|].
    exfalso. auto.
Qed.


Lemma nonempty_ltb {A : Type} (l : list A) :
  Nat.ltb 0 (List.length l) = true <-> l <> [].
Proof.
  destruct l; simpl; split; intros H;
    first [discriminate | reflexivity | exfalso; apply H; reflexivity].
Qed.



(** A rejected [save] writes nothing. *)
Lemma save_Some (db db' : gmap string UserPayment.t) (id : string)
    (doc doc' : UserPayment.t) :
  save LocalTZA db id doc = Some (db', doc') ->
  validate doc = true
  /\ doc' = preSave LocalTZA doc /\ db' = <[id := doc']> db.
Proof.
  unfold save. destruct (validate doc); [|discriminate].
  intros [= <- <-]. auto.
Qed.

(** Whatever makes [recordPayment] fail, the collection is as before. *)
Lemma recordPayment_failure (now : Date) (db db' : gmap string UserPayment.t)
    (id : string) (body : PayBody) (res : Response) :
  recordPayment LocalTZA now db id body = (db', res) ->
  success res = false -> db' = db.
Proof.
  unfold recordPayment. destruct (db !! id) as [userPayment|].
  - cbv zeta. destruct (Nat.ltb 0 _); [intros [= <- <-]; reflexivity|].
    destruct (Nat.ltb 0 _); [intros [= <- <-]; reflexivity|].
    destruct (save _ _ _ _) as [[db1 doc1]|];
      intros [= <- <-]; [discriminate | reflexivity].
  - intros [= <- <-]. reflexivity.
Qed.

(** C5.  A single payment that asks for a month number outside
    [1 .. tenure] is answered with a Validation error whose message names
    exactly the offending numbers, and the collection, so the account's
    [paymentRecords], is left as it was. *)
Theorem out_of_range_months_rejected (now : Date)
    (db : gmap string UserPayment.t) (id : string)
    (userPayment : UserPayment.t) (body : PayBody) :
  db !! id = Some userPayment ->
  (exists m, In m (pay_monthNumbers body) /\ ~ inRange userPayment m) ->
  exists invalidMonths,
    recordPayment LocalTZA now db id body
    = (db, json 400 false
             (InvalidMonthNumbers invalidMonths (tenure userPayment)) None)
    /\ errorKind (InvalidMonthNumbers invalidMonths (tenure userPayment))
       = Some ValidationError
    /\ (forall m, In m invalidMonths <->
                  In m (pay_monthNumbers body) /\ ~ inRange userPayment m)
    /\ fst (recordPayment LocalTZA now db id body) !! id = Some userPayment.
Proof.
  intros Hdb (m & Hin & Hout).
  set (invalidMonths :=
         List.filter
           (fun month => lt month 1%Q || gt month (tenure userPayment))
           (pay_monthNumbers body)).
  assert (Hiff : forall m, In m invalidMonths <->
                   In m (pay_monthNumbers body) /\ ~ inRange userPayment m).
  { intros m'. unfold invalidMonths.
    rewrite filter_In, outOfRange_true_iff. reflexivity. }
  assert (Hne : Nat.ltb 0 (List.length invalidMonths) = true).
  { apply nonempty_ltb. intros E.
    assert (Hm : In m invalidMonths) by (apply Hiff; auto).
    rewrite E in Hm. destruct Hm. }
  assert (Hres : recordPayment LocalTZA now db id body
                 = (db, json 400 false
                          (InvalidMonthNumbers invalidMonths
                             (tenure userPayment)) None)).
  { unfold recordPayment. rewrite Hdb. cbv zeta.
    fold invalidMonths. rewrite Hne. reflexivity. }
  exists invalidMonths. rewrite Hres. auto.
Qed.


(** ** C6: the records of a single payment *)



(** What a successful [recordPayment] has done. *)
Lemma recordPayment_success (now : Date) (db db' : gmap string UserPayment.t)
    (id : string) (body : PayBody) (res : Response) :
  recordPayment LocalTZA now db id body = (db', res) ->
  success res = true ->
  exists userPayment,
    db !! id = Some userPayment
    /\ db' = <[id :=
                preSave LocalTZA
                  (pushRecords
                     (List.map
                        (singlePaymentRecord LocalTZA userPayment now body)
                        (pay_monthNumbers body))
                     userPayment)]> db
    /\ data res
       = Some (preSave LocalTZA
                 (pushRecords
                    (List.map
                       (singlePaymentRecord LocalTZA userPayment now body)
                       (pay_monthNumbers body))
                    userPayment)).
Proof.
  unfold recordPayment. destruct (db !! id) as [userPayment|].
  - cbv zeta. destruct (Nat.ltb 0 _); [intros [= <- <-]; discriminate|].
    destruct (Nat.ltb 0 _); [intros [= <- <-]; discriminate|].
    destruct (save _ _ _ _) as [[db1 doc1]|] eqn:Hsave;
      intros [= <- <-]; [|discriminate].
    intros _. apply save_Some in Hsave as (_ & -> & ->).
    exists userPayment. auto.
  - intros [= <- <-]. discriminate.
Qed.


(** ** C8: bulk payments *)





(** Whatever makes [recordBulkPayment] fail, the collection is as
    before. *)
Lemma recordBulkPayment_failure (now : Date)
    (db db' : gmap string UserPayment.t) (id : string)
    (payments : list BulkEntry) (res : Response) :
  recordBulkPayment LocalTZA now db id payments = (db', res) ->
  success res = false -> db' = db.
Proof.
  unfold recordBulkPayment. destruct (db !! id) as [userPayment|].
  - destruct (validatePayments _ _); [intros [= <- <-]; reflexivity|].
    cbv zeta. destruct (save _ _ _ _) as [[db1 doc1]|];
      intros [= <- <-]; [discriminate | reflexivity].
  - intros [= <- <-]. reflexivity.
Qed.

(** What a successful [recordBulkPayment] has done. *)
Lemma recordBulkPayment_success (now : Date)
    (db db' : gmap string UserPayment.t) (id : string)
    (payments : list BulkEntry) (res : Response) :
  recordBulkPayment LocalTZA now db id payments = (db', res) ->
  success res = true ->
  exists userPayment,
    db !! id = Some userPayment
    /\ db' = <[id :=
                preSave LocalTZA
                  (pushRecords
                     (List.map (bulkPaymentRecord LocalTZA userPayment now)
                        payments)
                     userPayment)]> db.
Proof.
  unfold recordBulkPayment. destruct (db !! id) as [userPayment|].
  - destruct (validatePayments _ _); [intros [= <- <-]; discriminate|].
    cbv zeta. destruct (save _ _ _ _) as [[db1 doc1]|] eqn:Hsave;
      intros [= <- <-]; [|discriminate].
    intros _. apply save_Some in Hsave as (_ & -> & ->).
    exists userPayment. auto.
  - intros [= <- <-]. discriminate.
Qed.



(** ** C7: completion along the payment-application path *)

Lemma preSave_keeps_completed (this : UserPayment.t) :
  UserPayment.status this = completed ->
  UserPayment.status (preSave LocalTZA this) = completed.
Proof.
  intros H. rewrite preSave_status. unfold derivedStatus.
  destruct (ge _ _); [reflexivity | exact H].
Qed.

Lemma preSave_reached (this : UserPayment.t) :
  (tenure (preSave LocalTZA this) <= completedMonths (preSave LocalTZA this))%Q ->
  UserPayment.status (preSave LocalTZA this) = completed.
Proof.
  rewrite preSave_eq. simpl_doc. unfold derivedStatus, ge.
  intros H. apply Qle_bool_iff in H. rewrite H. reflexivity.
Qed.

(** A successful application rewrites the account it addresses with the
    result of a derivation pass over the old document and new records. *)
Lemma applyPayment_success (db : gmap string UserPayment.t)
    (p : PaymentApplication) :
  success (snd (applyPayment LocalTZA db p)) = true ->
  exists userPayment newRecords,
    db !! accountOf p = Some userPayment
    /\ fst (applyPayment LocalTZA db p)
       = <[accountOf p :=
             preSave LocalTZA (pushRecords newRecords userPayment)]> db.
Proof.
  destruct p as [now id body | now id payments]; simpl; intros Hok.
  - destruct (recordPayment LocalTZA now db id body) as [db' res] eqn:E.
    destruct (recordPayment_success _ _ _ _ _ _ E Hok)
      as (userPayment & Hdb & -> & _).
    eauto.
  - destruct (recordBulkPayment LocalTZA now db id payments)
      as [db' res] eqn:E.
    destruct (recordBulkPayment_success _ _ _ _ _ _ E Hok)
      as (userPayment & Hdb & ->).
    eauto.
Qed.

Lemma applyPayment_failure (db : gmap string UserPayment.t)
    (p : PaymentApplication) :
  success (snd (applyPayment LocalTZA db p)) = false ->
  fst (applyPayment LocalTZA db p) = db.
Proof.
  destruct p as [now id body | now id payments]; simpl; intros Hfail.
  - eapply recordPayment_failure; [apply surjective_pairing | exact Hfail].
  - eapply recordBulkPayment_failure;
      [apply surjective_pairing | exact Hfail].
Qed.

Lemma applyPayment_keeps_completed (db : gmap string UserPayment.t)
    (p : PaymentApplication) (id : string) (doc : UserPayment.t) :
  db !! id = Some doc ->
  UserPayment.status doc = completed ->
  exists doc',
    fst (applyPayment LocalTZA db p) !! id = Some doc'
    /\ UserPayment.status doc' = completed.
Proof.
  intros Hdb Hst.
  destruct (success (snd (applyPayment LocalTZA db p))) eqn:Hok.
  - destruct (applyPayment_success _ _ Hok)
      as (userPayment & newRecords & Hup & ->).
    destruct (decide (accountOf p = id)) as [<- | Hne].
    + rewrite lookup_insert_eq. eexists. split; [reflexivity|].
      apply preSave_keeps_completed.
      rewrite Hdb in Hup. injection Hup as <-. exact Hst.
    + rewrite lookup_insert_ne by exact Hne. eauto.
  - rewrite (applyPayment_failure _ _ Hok). eauto.
Qed.

Lemma applyPayments_keep_completed (ps : list PaymentApplication)
    (db : gmap string UserPayment.t) (id : string) (doc : UserPayment.t) :
  db !! id = Some doc ->
  UserPayment.status doc = completed ->
  exists doc',
    applyPayments LocalTZA db ps !! id = Some doc'
    /\ UserPayment.status doc' = completed.
Proof.
  revert db doc. induction ps as [|p ps IH]; intros db doc Hdb Hst.
  - simpl. eauto.
  - destruct (applyPayment_keeps_completed db p id doc Hdb Hst)
      as (doc1 & Hdb1 & Hst1).
    exact (IH _ _ Hdb1 Hst1).
Qed.

(** C7.  Along the payment-application path: when an application, after
    any earlier ones, leaves an account with [completedMonths >= tenure],
    the account is stored with status completed, and it has status
    completed after every later sequence of applications. *)
Theorem completion_is_permanent (db0 : gmap string UserPayment.t)
    (earlier later : list PaymentApplication) (p : PaymentApplication)
    (reached : UserPayment.t) :
  let db := applyPayments LocalTZA db0 earlier in
  let db1 := fst (applyPayment LocalTZA db p) in
  success (snd (applyPayment LocalTZA db p)) = true ->
  db1 !! accountOf p = Some reached ->
  (tenure reached <= completedMonths reached)%Q ->
  UserPayment.status reached = completed
  /\ exists final,
       applyPayments LocalTZA db1 later !! accountOf p = Some final
       /\ UserPayment.status final = completed.
Proof.
  intros db db1 Hok Hreached Hge.
  assert (Hst : UserPayment.status reached = completed).
  { destruct (applyPayment_success _ _ Hok)
      as (userPayment & newRecords & _ & Hdb1).
    subst db1. rewrite Hdb1, lookup_insert_eq in Hreached.
    injection Hreached as <-. apply preSave_reached, Hge. }
  split; [exact Hst|].
  exact (applyPayments_keep_completed later db1 _ reached Hreached Hst).
Qed.

(** ** C1: which paths run the derivation pass before they persist *)

(** What a successful [createUserPayment] has done. *)
Lemma createUserPayment_success (newId : string)
    (db db' : gmap string UserPayment.t) (data : CreateBody)
    (res : Response) :
  createUserPayment LocalTZA newId db data = (db', res) ->
  success res = true ->
  exists doc, db' = <[newId := preSave LocalTZA doc]> db.
Proof.
  unfold createUserPayment.
  destruct (new_chitAmount data), (new_tenure data), (new_startDate data);
    try (intros [= <- <-]; discriminate).
  destruct (save _ _ _ _) as [[db1 doc1]|] eqn:Hsave;
    intros [= <- <-]; [|discriminate].
  intros _. apply save_Some in Hsave as (_ & -> & ->). eauto.
Qed.

(** The create handler derives the two contract fields the same way before
    it saves: what the body sets (to other than 0, for the premium) is what
    is stored. *)
Lemma createUserPayment_keeps_set_fields (newId : string)
    (db db' : gmap string UserPayment.t) (data : CreateBody)
    (res : Response) :
  createUserPayment LocalTZA newId db data = (db', res) ->
  success res = true ->
  exists doc,
    db' !! newId = Some doc
    /\ (forall d, new_endDate data = Some d -> endDate doc = Some d)
    /\ (forall v, new_monthlyPremium data = Some v -> ~ (v == 0)%Q ->
                  monthlyPremium doc = Some v).
Proof.
  unfold createUserPayment.
  destruct (new_chitAmount data) as [c|], (new_tenure data) as [t|],
    (new_startDate data) as [sd|];
    try (intros [= <- <-]; discriminate).
  destruct (save _ _ _ _) as [[db1 doc1]|] eqn:Hsave;
    intros [= <- <-]; [|discriminate].
  intros _. apply save_Some in Hsave as (_ & -> & ->).
  eexists. split; [apply lookup_insert_eq|]. split.
  - intros d Hd. apply preSave_keeps_endDate. simpl_doc.
    rewrite Hd. simpl. rewrite andb_false_r. reflexivity.
  - intros v Hv Hnz. apply preSave_keeps_monthlyPremium; [|exact Hnz].
    simpl_doc. rewrite Hv. simpl.
    apply truthy_true_iff in Hnz. rewrite Hnz. simpl.
    rewrite andb_false_r. reflexivity.
Qed.

(** The three handlers that call [save] persist a derived document. *)
Lemma save_paths_persist_derived :
  (forall newId db db' data res,
      createUserPayment LocalTZA newId db data = (db', res) ->
      success res = true ->
      exists doc, db' !! newId = Some doc /\ derived LocalTZA doc)
  /\ (forall now db db' id body res,
        recordPayment LocalTZA now db id body = (db', res) ->
        success res = true ->
        exists doc, db' !! id = Some doc /\ derived LocalTZA doc)
  /\ (forall now db db' id payments res,
        recordBulkPayment LocalTZA now db id payments = (db', res) ->
        success res = true ->
        exists doc, db' !! id = Some doc /\ derived LocalTZA doc).
Proof.
  unfold derived. repeat split.
  - intros newId db db' data res Hrun Hok.
    destruct (createUserPayment_success _ _ _ _ _ Hrun Hok) as (doc & ->).
    eexists. split; [apply lookup_insert_eq | apply preSave_idempotent].
  - intros now db db' id body res Hrun Hok.
    destruct (recordPayment_success _ _ _ _ _ _ Hrun Hok)
      as (doc & _ & -> & _).
    eexists. split; [apply lookup_insert_eq | apply preSave_idempotent].
  - intros now db db' id payments res Hrun Hok.
    destruct (recordBulkPayment_success _ _ _ _ _ _ Hrun Hok)
      as (doc & _ & ->).
    eexists. split; [apply lookup_insert_eq | apply preSave_idempotent].
Qed.

End Properties.

(** The premises of C10 hold of [cancelledPaidUpAccount]. *)
Lemma cancelled_overwritten_on_completion_witness :
  UserPayment.status cancelledPaidUpAccount = cancelled
  /\ UserPayment.status (preSave utc cancelledPaidUpAccount) = completed.
Proof.
  split; [reflexivity|].
  apply (cancelled_overwritten_on_completion utc cancelledPaidUpAccount).
  - reflexivity.
  - vm_compute. discriminate.
Defined.



(** The premises of C5 hold of a request for month 13 of twelve. *)
Lemma out_of_range_months_rejected_witness :
  exists invalidMonths,
    recordPayment utc (ymd 2024 2 1) {["acc1" := freshAccount]} "acc1"
      thirteenOnly
    = ({["acc1" := freshAccount]},
       json 400 false (InvalidMonthNumbers invalidMonths 12%Q) None).
Proof.
  destruct (out_of_range_months_rejected utc (ymd 2024 2 1)
              {["acc1" := freshAccount]} "acc1" freshAccount thirteenOnly)
    as (invalidMonths & Hres & _).
  - reflexivity.
  - exists 13%Q. split; [simpl; auto|].
    intros [_ H]. vm_compute in H. apply H. reflexivity.
  - exists invalidMonths. exact Hres.
Defined.





(** The premises of C7 hold of a one-month account whose month is paid, and
    then paid for again in a batch. *)
Lemma completion_is_permanent_witness :
  exists final,
    applyPayments utc
      (fst (applyPayment utc
              {["acc1" := set_tenure 1%Q freshAccount]}
              (Single (ymd 2024 1 5) "acc1" januaryOnly)))
      [Bulk (ymd 2024 2 1) "acc1" [februaryFirst]] !! "acc1" = Some final
    /\ UserPayment.status final = completed.
Proof.
  destruct (completion_is_permanent utc
              {["acc1" := set_tenure 1%Q freshAccount]} []
              [Bulk (ymd 2024 2 1) "acc1" [februaryFirst]]
              (Single (ymd 2024 1 5) "acc1" januaryOnly)
              (preSave utc
                 (pushRecords
                    [singlePaymentRecord utc (set_tenure 1%Q freshAccount)
                       (ymd 2024 1 5) januaryOnly 1%Q]
                    (set_tenure 1%Q freshAccount))))
    as (_ & Hfinal).
  - reflexivity.
  - reflexivity.
  - vm_compute. discriminate.
  - exact Hfinal.
Defined.

(** C1 fails on the update path.  [PUT /:id] with [{ tenure: 24 }] on a
    fresh account of 12 months persists the new tenure next to the old
    [pendingMonths = 12]: no derivation pass ran, the stored summary is not
    the one derived from the stored document. *)
Theorem update_persists_without_derivation :
  let stored := applyUpdate tenureTwentyFour freshAccount in
  updateUserPayment {["acc1" := freshAccount]} "acc1" tenureTwentyFour
  = (<["acc1" := stored]> {["acc1" := freshAccount]},
     json 200 true AccountUpdated (Some stored))
  /\ tenure stored = 24%Q
  /\ pendingMonths stored = (12 - 0)%Q
  /\ completedMonths stored = 0%Q
  /\ ~ (completedMonths stored + pendingMonths stored == tenure stored)%Q
  /\ ~ derived utc stored.
Proof.
  intros stored.
  split; [reflexivity|]. split; [reflexivity|]. split; [reflexivity|].
  split; [reflexivity|]. split.
  - vm_compute. discriminate.
  - unfold derived. intros H.
    apply (f_equal pendingMonths) in H. vm_compute in H. discriminate.
Qed.

(** ** The worked example of the design *)

(** Months carry into the year, days past the end of a month into the next
    month. *)
Example plusMonths_carries :
  plusMonths utc (ymd 2024 1 1) 12%Q = ymd 2025 1 1
  /\ plusMonths utc (ymd 2024 11 15) 2%Q = ymd 2025 1 15
  /\ plusMonths utc (ymd 2024 1 31) 1%Q = ymd 2024 3 2.
Proof. repeat split; reflexivity. Qed.

Example trim_strips_both_ends :
  JsString.trim "  paid in cash " = "paid in cash"%string.
Proof. reflexivity. Qed.

(** An account created with [startDate = 2024-01-01], [chitAmount = 12000]
    and [tenure = 12] is stored as [freshAccount], with a monthly premium of
    1000 and an end date of 2025-01-01. *)
Example create_fresh_account :
  fst (createUserPayment utc "acc1" ∅
         (mkCreateBody asha (Some 12000%Q) (Some 12%Q) None
            (Some (ymd 2024 1 1)) None None [])) !! "acc1"
  = Some freshAccount
  /\ (12000 / 12 == 1000)%Q.
Proof. split; reflexivity. Qed.

(** Paying 2000 for months 1 and 2 gives two paid records of 1000 and the
    summary 2 / 10 / 2000; asking for month 1 again is a conflict that
    lists month 1. *)
Example pay_two_months_then_repeat :
  let body := mkPayBody [1%Q; 2%Q] 2000%Q None None None None in
  let db := fst (recordPayment utc (ymd 2024 2 5) {["acc1" := freshAccount]}
                   "acc1" body) in
  exists stored,
    db !! "acc1" = Some stored
    /\ List.map PaymentRecord.status (paymentRecords stored) = [paid; paid]
    /\ Forall (fun record => (amount record == 1000)%Q) (paymentRecords stored)
    /\ List.map dueDate (paymentRecords stored) = [ymd 2024 1 1; ymd 2024 2 1]
    /\ (completedMonths stored == 2)%Q
    /\ (pendingMonths stored == 10)%Q
    /\ (totalPaidAmount stored == 2000)%Q
    /\ snd (recordPayment utc (ymd 2024 2 6) db "acc1" januaryOnly)
       = json 400 false (MonthsAlreadyPaid [1%Q]) None.
Proof.
  eexists. split; [reflexivity|].
  split; [reflexivity|].
  split; [repeat constructor|].
  repeat split; reflexivity.
Qed.

(** * More of the code *)

Section HandlerProperties.

Variable LocalTZA : Z -> bool -> Z.

(** ** The last payment date *)

Lemma latest_fold (rest : list PaymentRecord.t) (first : PaymentRecord.t) :
  let latest :=
    fold_left
      (fun latest record =>
         if paymentDate latest <? paymentDate record then record else latest)
      rest first in
  In latest (first :: rest)
  /\ forall record, In record (first :: rest) ->
                    paymentDate record <= paymentDate latest.
Proof.
  revert first. induction rest as [|next rest IH]; intros first; simpl.
  - split; [auto|]. intros record [<- | []]. lia.
  - destruct (Z.ltb_spec (paymentDate first) (paymentDate next)) as [Hlt|Hge].
    + destruct (IH next) as (Hin & Hmax). split.
      * simpl in Hin. tauto.
      * intros record [<- | Hrec]; [|apply Hmax, Hrec].
        specialize (Hmax next (or_introl eq_refl)). lia.
    + destruct (IH first) as (Hin & Hmax). split.
      * simpl in Hin. tauto.
      * intros record [<- | [<- | Hrec]].
        -- apply Hmax. left. reflexivity.
        -- specialize (Hmax first (or_introl eq_refl)). lia.
        -- apply Hmax. right. exact Hrec.
Qed.

(** After a derivation pass [lastPaymentDate] is the payment date of a
    settled record that no settled record is paid after; with no settled
    record the field keeps the value it had. *)
Theorem lastPaymentDate_is_latest (this : UserPayment.t) :
  match settled this with
  | [] => lastPaymentDate (preSave LocalTZA this) = lastPaymentDate this
  | _ :: _ =>
      exists latest,
        In latest (settled this)
        /\ lastPaymentDate (preSave LocalTZA this)
           = Some (paymentDate latest)
        /\ forall record, In record (settled this) ->
                          paymentDate record <= paymentDate latest
  end.
Proof.
  rewrite preSave_eq. simpl_doc. unfold derivedLastPaymentDate.
  destruct (settled this) as [|first rest]; [reflexivity|].
  simpl. destruct (latest_fold rest first) as (Hin & Hmax).
  eexists. split; [exact Hin|]. split; [reflexivity | exact Hmax].
Qed.

(** ** What a payment adds to the summary *)

Lemma derived_fields (doc : UserPayment.t) :
  derived LocalTZA doc ->
  completedMonths doc = lengthOf (settled doc)
  /\ pendingMonths doc = (tenure doc - lengthOf (settled doc))%Q
  /\ totalPaidAmount doc = sumAmounts (settled doc).
Proof.
  unfold derived. intros H.
  pose proof (preSave_eq LocalTZA doc) as E. rewrite H in E.
  pose proof (f_equal completedMonths E) as Hc.
  pose proof (f_equal pendingMonths E) as Hp.
  pose proof (f_equal totalPaidAmount E) as Ht.
  simpl_doc. auto.
Qed.












(** ** When a single payment is accepted *)






(** ** Invariants of the collection *)

Lemma validate_preSave (doc : UserPayment.t) :
  validate (preSave LocalTZA doc) = validate doc.
Proof. rewrite preSave_eq. reflexivity. Qed.






(** ** One paid record per month *)






(** ** Creating an account *)

(** [createUserPayment] answers 400 and leaves the collection as it was
    when the body lacks [chitAmount], [tenure] or [startDate], when
    [chitAmount < 1000] or [tenure < 1], or when a record it carries fails
    a validator; in fact whenever it does not succeed. *)
Theorem create_rejected (newId : string)
    (db : gmap string UserPayment.t) (request : CreateBody) :
  (new_chitAmount request = None \/ new_tenure request = None
   \/ new_startDate request = None
   \/ (exists c, new_chitAmount request = Some c /\ (c < 1000)%Q)
   \/ (exists t, new_tenure request = Some t /\ (t < 1)%Q)
   \/ forallb validatePaymentRecord (new_paymentRecords request) = false
   \/ success (snd (createUserPayment LocalTZA newId db request)) = false) ->
  createUserPayment LocalTZA newId db request
  = (db, json 400 false ErrorMessage None).
Proof.
  unfold createUserPayment.
  destruct (new_chitAmount request) as [c|]; [|reflexivity].
  destruct (new_tenure request) as [t|]; [|reflexivity].
  destruct (new_startDate request) as [sd|]; [|reflexivity].
  unfold save, validate, ge. simpl_doc.
  destruct (Qle_bool 1000 c) eqn:Hc; [|reflexivity].
  destruct (Qle_bool 1 t) eqn:Ht; [|reflexivity].
  destruct (forallb validatePaymentRecord (new_paymentRecords request))
    eqn:Hr; [|reflexivity].
  simpl. apply Qle_bool_iff in Hc, Ht.
  intros [H | [H | [H | [(c' & H & Hlt) | [(t' & H & Hlt) | [H | H]]]]]];
    try discriminate.
  - injection H as <-. exfalso. exact (Qlt_not_le _ _ Hlt Hc).
  - injection H as <-. exfalso. exact (Qlt_not_le _ _ Hlt Ht).
Qed.


(** ** Completion and administrative updates *)

Lemma mutate_keeps_completed (db : gmap string UserPayment.t) (m : Mutation)
    (id : string) (doc : UserPayment.t) :
  keepsStatus m = true ->
  db !! id = Some doc ->
  UserPayment.status doc = completed ->
  exists doc',
    mutate LocalTZA db m !! id = Some doc'
    /\ UserPayment.status doc' = completed.
Proof.
  intros Hm Hdb Hst.
  destruct m as [newId data | now pid body | now pid payments
                 | uid body | did]; simpl in *; try discriminate.
  - exact (applyPayment_keeps_completed LocalTZA db (Single now pid body)
             id doc Hdb Hst).
  - exact (applyPayment_keeps_completed LocalTZA db (Bulk now pid payments)
             id doc Hdb Hst).
  - unfold updateUserPayment. destruct (validateUpdate body); simpl; eauto.
    destruct (db !! uid) as [old|] eqn:Hold; simpl; eauto.
    destruct (decide (uid = id)) as [-> | Hne].
    + rewrite lookup_insert_eq. eexists. split; [reflexivity|].
      rewrite Hdb in Hold. injection Hold as <-.
      unfold applyUpdate. simpl_doc.
      destruct (upd_status body); [discriminate | exact Hst].
    + rewrite lookup_insert_ne by exact Hne. eauto.
Qed.

(** A completed account stays completed through any sequence of payments
    and of updates that do not set [status] themselves, also when such an
    update raises the tenure or replaces the records. *)
Theorem completed_survives_updates (ms : list Mutation)
    (db : gmap string UserPayment.t) (id : string) (doc : UserPayment.t) :
  forallb keepsStatus ms = true ->
  db !! id = Some doc ->
  UserPayment.status doc = completed ->
  exists doc',
    mutateAll LocalTZA db ms !! id = Some doc'
    /\ UserPayment.status doc' = completed.
Proof.
  revert db doc. induction ms as [|m ms IH]; intros db doc Hms Hdb Hst.
  - simpl. eauto.
  - simpl in Hms. apply andb_true_iff in Hms as (Hm & Hms).
    destruct (mutate_keeps_completed db m id doc Hm Hdb Hst)
      as (doc1 & Hdb1 & Hst1).
    exact (IH _ _ Hms Hdb1 Hst1).
Qed.

(** ** Deleting an account *)

(** Deleting a stored account answers with the document and removes it
    and nothing else: afterwards reading it, its history, paying into it
    and deleting it again all answer 404 and change nothing. *)
Theorem deleted_account_is_gone (db : gmap string UserPayment.t)
    (id : string) (doc : UserPayment.t) :
  db !! id = Some doc ->
  let db' := fst (deleteUserPayment db id) in
  reply_payload (snd (deleteUserPayment db id)) = Some doc
  /\ db' !! id = None
  /\ (forall other, other <> id -> db' !! other = db !! other)
  /\ reply_status (getUserPaymentById db' id) = 404
  /\ reply_status (getPaymentHistory db' id) = 404
  /\ (forall now body,
        recordPayment LocalTZA now db' id body
        = (db', json 404 false UserPaymentNotFound None))
  /\ (forall now payments,
        recordBulkPayment LocalTZA now db' id payments
        = (db', json 404 false UserPaymentNotFound None))
  /\ deleteUserPayment db' id
     = (db', mkReply 404 false (Some AccountNotFound) None).
Proof.
  intros Hdb db'.
  assert (Hdel : deleteUserPayment db id
                 = (delete id db,
                    mkReply 200 true (Some AccountDeleted) (Some doc))).
  { unfold deleteUserPayment. rewrite Hdb. reflexivity. }
  subst db'. rewrite Hdel. simpl.
  assert (Hgone : delete id db !! id = None) by apply lookup_delete_eq.
  split; [reflexivity|]. split; [exact Hgone|].
  split; [intros other Hne; apply lookup_delete_ne; congruence|].
  unfold getUserPaymentById, getPaymentHistory, recordPayment,
    recordBulkPayment, deleteUserPayment.
  rewrite Hgone. repeat split.
Qed.

(** Deleting an account just created, under an id that was free, gives the
    collection back as it was. *)
Theorem delete_undoes_create (newId : string)
    (db : gmap string UserPayment.t) (data : CreateBody) :
  db !! newId = None ->
  success (snd (createUserPayment LocalTZA newId db data)) = true ->
  fst (deleteUserPayment
         (fst (createUserPayment LocalTZA newId db data)) newId)
  = db.
Proof.
  intros Hfree Hok.
  destruct (createUserPayment LocalTZA newId db data) as [db' res] eqn:E.
  destruct (createUserPayment_success _ _ _ _ _ _ E Hok) as (doc & ->).
  simpl. unfold deleteUserPayment. rewrite lookup_insert_eq. simpl.
  rewrite delete_insert_eq. apply delete_id. exact Hfree.
Qed.

(** ** The payment history *)

Lemma insertBy_Permutation {A : Type} (comparator : A -> A -> Number)
    (x : A) (l : list A) :
  Permutation (insertBy comparator x l) (x :: l).
Proof.
  induction l as [|y l IH]; simpl; [reflexivity|].
  destruct (lt 0%Q (comparator x y)); [|reflexivity].
  rewrite IH. apply perm_swap.
Qed.

Lemma sortBy_Permutation {A : Type} (comparator : A -> A -> Number)
    (l : list A) :
  Permutation (sortBy comparator l) l.
Proof.
  induction l as [|x l IH]; simpl; [reflexivity|].
  rewrite insertBy_Permutation. apply perm_skip, IH.
Qed.

(** With a comparator that orders by a key, the result is sorted by that
    key. *)
Lemma sortBy_sorted {A : Type} (comparator : A -> A -> Number)
    (key : A -> Q) (l : list A) :
  (forall a b, lt 0%Q (comparator a b) = true <-> (key b < key a)%Q) ->
  StronglySorted (fun a b => (key a <= key b)%Q) (sortBy comparator l).
Proof.
  intros Hkey. induction l as [|x l IH]; simpl; [constructor|].
  revert IH. generalize (sortBy comparator l). clear l.
  intros l Hsorted. induction Hsorted as [|y l Hsorted IH Hy]; simpl.
  - repeat constructor.
  - destruct (lt 0%Q (comparator x y)) eqn:E.
    + apply Hkey in E. constructor; [exact IH|].
      eapply Permutation_Forall;
        [symmetry; apply insertBy_Permutation|].
      constructor; [apply Qlt_le_weak, E | exact Hy].
    + assert (Hxy : (key x <= key y)%Q).
      { apply Qnot_lt_le. intros H. apply Hkey in H. congruence. }
      constructor; [constructor; assumption|].
      constructor; [exact Hxy|].
      eapply Forall_impl; [|exact Hy].
      intros z Hz. eapply Qle_trans; eauto.
Qed.

Lemma StronglySorted_weaken {A : Type} (R R' : A -> A -> Prop) (l : list A) :
  (forall a b, R a b -> R' a b) ->
  StronglySorted R l -> StronglySorted R' l.
Proof.
  intros HR. induction 1 as [|x l _ IH Hx]; constructor; [exact IH|].
  eapply Forall_impl; [|exact Hx]. intros y. apply HR.
Qed.

Lemma paid_or_pending_count (records : list PaymentRecord.t) :
  (List.length (List.filter isPaidRecord records)
   + List.length (List.filter isPendingRecord records)
   = List.length records)%nat.
Proof.
  induction records as [|record records IH]; simpl; [reflexivity|].
  unfold isPaidRecord at 1, isPendingRecord at 1.
  destruct (PaymentRecord.status record); simpl; lia.
Qed.

Lemma paidPayments_order (records : list PaymentRecord.t) :
  StronglySorted (fun a b => paymentDate b <= paymentDate a)
    (sortBy (fun a b => inject_Z (paymentDate b - paymentDate a)) records).
Proof.
  eapply StronglySorted_weaken;
    [|apply (sortBy_sorted _ (fun r => inject_Z (- paymentDate r)))].
  - intros a b H. simpl in H. rewrite <- Zle_Qle in H. lia.
  - intros a b. rewrite lt_true_iff.
    change 0%Q with (inject_Z 0). rewrite <- !Zlt_Qlt. lia.
Qed.

Lemma pendingPayments_order (records : list PaymentRecord.t) :
  StronglySorted (fun a b => (monthNumber a <= monthNumber b)%Q)
    (sortBy (fun a b => (monthNumber a - monthNumber b)%Q) records).
Proof.
  apply (sortBy_sorted _ monthNumber).
  intros a b. rewrite lt_true_iff.
  rewrite (Qlt_minus_iff (monthNumber b) (monthNumber a)). reflexivity.
Qed.

(** The history of a stored account lists its settled records, latest
    payment first, and its pending and overdue records, lowest month first;
    nothing is lost or repeated, and the two counts add up to the number of
    records. *)
Theorem history_orders_and_partitions (db : gmap string UserPayment.t)
    (id : string) (userPayment : UserPayment.t) :
  db !! id = Some userPayment ->
  exists history,
    getPaymentHistory db id = mkReply 200 true None (Some history)
    /\ Permutation (paidPayments history) (settled userPayment)
    /\ StronglySorted (fun a b => paymentDate b <= paymentDate a)
         (paidPayments history)
    /\ Permutation (pendingPayments history)
         (List.filter isPendingRecord (paymentRecords userPayment))
    /\ StronglySorted (fun a b => (monthNumber a <= monthNumber b)%Q)
         (pendingPayments history)
    /\ (totalPaid history + totalPending history
        = List.length (paymentRecords userPayment))%nat
    /\ history_summary history = getPaymentSummary userPayment.
Proof.
  intros Hdb. unfold getPaymentHistory. rewrite Hdb. cbv zeta.
  eexists. split; [reflexivity|]. simpl.
  split; [apply sortBy_Permutation|].
  split; [apply paidPayments_order|].
  split; [apply sortBy_Permutation|].
  split; [apply pendingPayments_order|].
  split; [|reflexivity].
  rewrite !(Permutation_length (sortBy_Permutation _ _)).
  apply paid_or_pending_count.
Qed.

Lemma derived_lastPaymentDate (doc : UserPayment.t) :
  derived LocalTZA doc ->
  lastPaymentDate doc = derivedLastPaymentDate doc.
Proof.
  unfold derived. intros H.
  pose proof (preSave_eq LocalTZA doc) as E. rewrite H in E.
  exact (f_equal lastPaymentDate E).
Qed.

(** For a derived account with a settled record, the first entry of the
    history's paid payments carries the account's [lastPaymentDate], and
    the history counts as many paid payments as [completedMonths]. *)
Theorem history_head_is_last_payment (db : gmap string UserPayment.t)
    (id : string) (userPayment : UserPayment.t) :
  db !! id = Some userPayment ->
  derived LocalTZA userPayment ->
  settled userPayment <> [] ->
  exists history first rest,
    reply_payload (getPaymentHistory db id) = Some history
    /\ paidPayments history = first :: rest
    /\ lastPaymentDate userPayment = Some (paymentDate first)
    /\ lengthOf (paidPayments history) = completedMonths userPayment.
Proof.
  intros Hdb Hder Hne.
  destruct (derived_fields _ Hder) as (Hc & _ & _).
  rewrite (derived_lastPaymentDate _ Hder), Hc.
  unfold getPaymentHistory. rewrite Hdb. cbv zeta. simpl.
  fold (settled userPayment).
  set (paid := sortBy _ (settled userPayment)).
  assert (Hperm : Permutation paid (settled userPayment))
    by apply sortBy_Permutation.
  assert (Hsorted : StronglySorted
                      (fun a b => paymentDate b <= paymentDate a) paid)
    by apply paidPayments_order.
  unfold derivedLastPaymentDate.
  destruct (settled userPayment) as [|r0 rs] eqn:Hs; [congruence|].
  destruct paid as [|first rest] eqn:Hpaid.
  { apply Permutation_nil in Hperm. discriminate. }
  exists (mkPaymentHistory (first :: rest)
            (sortBy (fun a b => (monthNumber a - monthNumber b)%Q)
               (List.filter isPendingRecord (paymentRecords userPayment)))
            (List.length (first :: rest))
            (List.length
               (sortBy (fun a b => (monthNumber a - monthNumber b)%Q)
                  (List.filter isPendingRecord (paymentRecords userPayment))))
            (getPaymentSummary userPayment)), first, rest.
  split; [reflexivity|]. split; [reflexivity|]. split.
  - simpl. destruct (latest_fold rs r0) as (Hin & Hmax).
    set (latest := fold_left _ rs r0) in *.
    f_equal. apply Z.le_antisymm.
    + assert (Hl : In latest (first :: rest)).
      { eapply Permutation_in; [symmetry; exact Hperm | exact Hin]. }
      destruct Hl as [<- | Hl]; [lia|].
      apply StronglySorted_inv in Hsorted as (_ & Hall).
      rewrite List.Forall_forall in Hall. apply Hall, Hl.
    + apply Hmax. eapply Permutation_in; [exact Hperm | left; reflexivity].
  - cbn [paidPayments]. unfold lengthOf.
    rewrite (Permutation_length Hperm). reflexivity.
Qed.

(** ** The summary *)

(** The month the summary names as next due for an account whose
    [completedMonths] has reached its tenure is out of range: paying it is
    refused with the range error and nothing changes. *)
Theorem next_due_month_after_completion_refused (now : Date)
    (db : gmap string UserPayment.t) (id : string)
    (userPayment : UserPayment.t) (body : PayBody) :
  db !! id = Some userPayment ->
  (tenure userPayment <= completedMonths userPayment)%Q ->
  pay_monthNumbers body
  = [PaymentSummary.nextDueMonth (getPaymentSummary userPayment)] ->
  recordPayment LocalTZA now db id body
  = (db, json 400 false
           (InvalidMonthNumbers [(completedMonths userPayment + 1)%Q]
              (tenure userPayment)) None).
Proof.
  intros Hdb Hdone Hbody. unfold recordPayment. rewrite Hdb, Hbody.
  cbv zeta. simpl.
  assert (Hgt : gt (completedMonths userPayment + 1)%Q (tenure userPayment)
                = true).
  { unfold gt. apply lt_true_iff.
    eapply Qle_lt_trans; [exact Hdone|].
    rewrite <- (Qplus_0_r (completedMonths userPayment)) at 1.
    apply Qplus_lt_r. reflexivity. }
  rewrite Hgt, orb_true_r. reflexivity.
Qed.

Lemma toFixed_Qeq (f : nat) (x y : Number) :
  (x == y)%Q -> JsFormat.toFixed f x = JsFormat.toFixed f y.
Proof.
  intros H. unfold JsFormat.toFixed.
  assert (Hlt : lt x 0%Q = lt y 0%Q) by (unfold lt; rewrite H; reflexivity).
  rewrite Hlt.
  assert (Habs : ((if lt y 0%Q then - x else x)
                  == (if lt y 0%Q then - y else y))%Q).
  { destruct (lt y 0%Q); rewrite H; reflexivity. }
  revert Habs.
  generalize (if lt y 0%Q then (- x)%Q else x),
    (if lt y 0%Q then (- y)%Q else y).
  intros x' y' Habs.
  assert (Hge : ge x' (inject_Z (10 ^ 21)) = ge y' (inject_Z (10 ^ 21))).
  { unfold ge. rewrite Habs. reflexivity. }
  rewrite Hge.
  assert (Hn : Qfloor (x' * inject_Z (10 ^ Z.of_nat f) + (1 # 2))
               = Qfloor (y' * inject_Z (10 ^ Z.of_nat f) + (1 # 2))).
  { apply Qfloor_comp. rewrite Habs. reflexivity. }
  rewrite Hn. reflexivity.
Qed.

(** For a tenure other than 0, the summary prints the completion as
    ["100.00"] when [completedMonths] equals the tenure and as ["0.00"]
    when it is 0. *)
Theorem completion_percentage_ends (this : UserPayment.t) :
  ~ (tenure this == 0)%Q ->
  ((completedMonths this == tenure this)%Q ->
   PaymentSummary.completionPercentage (getPaymentSummary this)
   = Some "100.00"%string)
  /\ ((completedMonths this == 0)%Q ->
      PaymentSummary.completionPercentage (getPaymentSummary this)
      = Some "0.00"%string).
Proof.
  intros Ht. unfold getPaymentSummary, completionPercentageOf.
  cbn [PaymentSummary.completionPercentage].
  apply truthy_true_iff in Ht as Ht'. unfold truthy in Ht'.
  apply negb_true_iff in Ht'. rewrite Ht'.
  split; intros Hc.
  - rewrite (toFixed_Qeq 2 _ 100%Q); [reflexivity|].
    rewrite Hc. field. exact Ht.
  - rewrite (toFixed_Qeq 2 _ 0%Q); [reflexivity|].
    rewrite Hc. field. exact Ht.
Qed.

(** ** Due dates *)

Lemma MakeDay_inverse (t : Z) :
  MakeDay (YearFromTime t) (MonthFromTime t) (DateFromTime t) = Day t.
Proof.
  unfold MakeDay, DateFromTime, MonthFromTime, InLeapYear, DayWithinYear.
  repeat match goal with
         | |- context [ ?a <? ?b ] => destruct (Z.ltb_spec a b)
         end;
    simpl; rewrite Z.div_small, !Z.add_0_r by lia;
    destruct (isLeapYear (YearFromTime t)); lia.
Qed.

Lemma MakeDate_inverse (t : Z) : MakeDate (Day t) (TimeWithinDay t) = t.
Proof.
  unfold MakeDate, Day, TimeWithinDay, msPerDay.
  Z.div_mod_to_equations. lia.
Qed.

Lemma MonthFromTime_range (t : Z) : 0 <= MonthFromTime t <= 11.
Proof.
  unfold MonthFromTime.
  repeat match goal with
         | |- context [ ?a <? ?b ] => destruct (Z.ltb_spec a b)
         end; lia.
Qed.

(** Setting the month a date is in gives the date back, where local time
    maps back to the time it came from. *)
Lemma setMonth_same_month (d : Date) :
  (forall t, LocalTZA (t + LocalTZA t true) false = LocalTZA t true) ->
  setMonth LocalTZA d (inject_Z (getMonth LocalTZA d)) = d.
Proof.
  intros Htz. unfold setMonth, getMonth.
  rewrite ToIntegerOrInfinity_inject_Z, MakeDay_inverse, MakeDate_inverse.
  unfold UTC, LocalTime. rewrite Htz. lia.
Qed.

Lemma dueDateOf_integer (userPayment : UserPayment.t) (k : Z) :
  dueDateOf LocalTZA userPayment (inject_Z k)
  = setMonth LocalTZA (startDate userPayment)
      (inject_Z (getMonth LocalTZA (startDate userPayment) + k - 1)).
Proof.
  unfold dueDateOf, setMonth. do 3 f_equal.
  apply ToIntegerOrInfinity_Qeq.
  rewrite <- inject_Z_plus. unfold Qeq. simpl. lia.
Qed.

(** Where local time maps back to the time it came from, the first month
    is due on the start date itself, whatever the day of the month. *)
Theorem first_month_due_on_startDate (userPayment : UserPayment.t) :
  (forall t, LocalTZA (t + LocalTZA t true) false = LocalTZA t true) ->
  dueDateOf LocalTZA userPayment 1%Q = startDate userPayment.
Proof.
  intros Htz. change 1%Q with (inject_Z 1). rewrite dueDateOf_integer.
  replace (getMonth LocalTZA (startDate userPayment) + 1 - 1)
    with (getMonth LocalTZA (startDate userPayment)) by lia.
  apply setMonth_same_month, Htz.
Qed.

Lemma DayFromYear_next (y : Z) : DayFromYear y + 365 <= DayFromYear (y + 1).
Proof. unfold DayFromYear. Z.div_mod_to_equations. lia. Qed.

Lemma MakeDay_next_month (y m dt : Z) :
  MakeDay y m dt + 28 <= MakeDay y (m + 1) dt.
Proof.
  unfold MakeDay.
  assert (Hr : 0 <= m mod 12 < 12) by (apply Z.mod_pos_bound; lia).
  destruct (Z.eq_dec (m mod 12) 11) as [E|E].
  - assert (E1 : (m + 1) mod 12 = 0) by (Z.div_mod_to_equations; lia).
    assert (E2 : (m + 1) / 12 = m / 12 + 1) by (Z.div_mod_to_equations; lia).
    rewrite E, E1, E2. simpl.
    pose proof (DayFromYear_next (y + m / 12)) as Hy.
    replace (y + (m / 12 + 1)) with (y + m / 12 + 1) by lia.
    destruct (isLeapYear (y + m / 12)); lia.
  - assert (E1 : (m + 1) mod 12 = m mod 12 + 1)
      by (Z.div_mod_to_equations; lia).
    assert (E2 : (m + 1) / 12 = m / 12) by (Z.div_mod_to_equations; lia).
    rewrite E1, E2. set (r := m mod 12) in *.
    assert (Hcases : r = 0 \/ r = 1 \/ r = 2 \/ r = 3 \/ r = 4 \/ r = 5
                     \/ r = 6 \/ r = 7 \/ r = 8 \/ r = 9 \/ r = 10) by lia.
    destruct Hcases as [-> | [-> | [-> | [-> | [-> | [-> | [-> | [-> | [->
                       | [-> | ->]]]]]]]]]];
      simpl; destruct (isLeapYear (y + m / 12)); lia.
Qed.

Lemma setMonth_next (d : Date) (k : Z) :
  fixedOffset LocalTZA ->
  setMonth LocalTZA d (inject_Z k) < setMonth LocalTZA d (inject_Z (k + 1)).
Proof.
  intros (offset & Hoff). unfold setMonth, UTC, LocalTime.
  rewrite !ToIntegerOrInfinity_inject_Z, !Hoff.
  set (t := d + offset).
  pose proof (MakeDay_next_month (YearFromTime t) k (DateFromTime t)).
  unfold MakeDate, msPerDay. lia.
Qed.

Lemma setMonth_increasing (d : Date) (j k : Z) :
  fixedOffset LocalTZA -> j < k ->
  setMonth LocalTZA d (inject_Z j) < setMonth LocalTZA d (inject_Z k).
Proof.
  intros Hfix Hjk.
  replace k with (j + 1 + Z.of_nat (Z.to_nat (k - j - 1))) by lia.
  induction (Z.to_nat (k - j - 1)) as [|n IH].
  - rewrite Z.add_0_r. apply setMonth_next, Hfix.
  - eapply Z.lt_trans; [exact IH|].
    replace (j + 1 + Z.of_nat (S n)) with (j + 1 + Z.of_nat n + 1) by lia.
    apply setMonth_next, Hfix.
Qed.

(** On a host with one offset from UTC, for a whole tenure [n]: the due
    dates of the months grow with the month number, and every month from 1
    to [n] is due on or after the start date and before the end date the
    derivation pass computes. *)
Theorem due_dates_within_contract (userPayment : UserPayment.t) (n k : Z) :
  fixedOffset LocalTZA ->
  (tenure userPayment == inject_Z n)%Q ->
  1 <= k <= n ->
  startDate userPayment <= dueDateOf LocalTZA userPayment (inject_Z k)
  /\ dueDateOf LocalTZA userPayment (inject_Z k)
     < plusMonths LocalTZA (startDate userPayment) (tenure userPayment)
  /\ forall k', k < k' ->
       dueDateOf LocalTZA userPayment (inject_Z k)
       < dueDateOf LocalTZA userPayment (inject_Z k').
Proof.
  intros Hfix Hn Hk.
  assert (Hfirst : dueDateOf LocalTZA userPayment 1%Q
                   = startDate userPayment).
  { change 1%Q with (inject_Z 1). rewrite dueDateOf_integer.
    replace (getMonth LocalTZA (startDate userPayment) + 1 - 1)
      with (getMonth LocalTZA (startDate userPayment)) by lia.
    apply setMonth_same_month. destruct Hfix as (offset & Hoff).
    intros t. rewrite !Hoff. reflexivity. }
  assert (Hend : plusMonths LocalTZA (startDate userPayment)
                   (tenure userPayment)
                 = dueDateOf LocalTZA userPayment (inject_Z (n + 1))).
  { rewrite dueDateOf_integer. unfold plusMonths, setMonth. do 3 f_equal.
    apply ToIntegerOrInfinity_Qeq. rewrite Hn, <- inject_Z_plus.
    apply inject_Z_injective. lia. }
  assert (Hmono : forall a b, a < b ->
            dueDateOf LocalTZA userPayment (inject_Z a)
            < dueDateOf LocalTZA userPayment (inject_Z b)).
  { intros a b Hab. rewrite !dueDateOf_integer.
    apply setMonth_increasing; [exact Hfix | lia]. }
  split; [|split].
  - rewrite <- Hfirst. change 1%Q with (inject_Z 1).
    destruct (Z.eq_dec k 1) as [-> | Hne]; [lia|].
    apply Z.lt_le_incl, Hmono. lia.
  - rewrite Hend. apply Hmono. lia.
  - intros k' Hk'. apply Hmono, Hk'.
Qed.

(** ** Reading an account by its Aadhar number *)

Lemma findByAadhar_Some (db : gmap string UserPayment.t) (number : string)
    (doc : UserPayment.t) :
  findByAadhar db number = Some doc ->
  aadharNumber (identity doc) = number /\ exists id, db !! id = Some doc.
Proof.
  unfold findByAadhar.
  destruct (List.find _ _) as [[id doc']|] eqn:E; [|discriminate].
  intros [= <-]. apply find_some in E as (Hin & Heq). simpl in *.
  split; [apply String.eqb_eq, Heq|].
  exists id. apply list_elem_of_In, elem_of_map_to_list in Hin. exact Hin.
Qed.

Lemma findByAadhar_None (db : gmap string UserPayment.t) (number : string) :
  findByAadhar db number = None ->
  forall id doc, db !! id = Some doc -> aadharNumber (identity doc) <> number.
Proof.
  unfold findByAadhar.
  destruct (List.find _ _) as [entry|] eqn:E; [discriminate|].
  intros _ id doc Hdb Heq.
  apply elem_of_map_to_list, list_elem_of_In in Hdb.
  pose proof (find_none _ _ E _ Hdb) as H. simpl in H.
  apply String.eqb_eq in Heq. congruence.
Qed.

(** Reading by Aadhar number answers 200 with a stored account that has
    this number and with its summary, or 404 when no stored account has
    it. *)
Theorem aadhar_lookup_finds_an_account (db : gmap string UserPayment.t)
    (number : string) :
  match reply_payload (getUserPaymentByAadhar db number) with
  | Some view =>
      reply_status (getUserPaymentByAadhar db number) = 200
      /\ aadharNumber (identity (view_data view)) = number
      /\ (exists id, db !! id = Some (view_data view))
      /\ view_summary view = getPaymentSummary (view_data view)
  | None =>
      reply_status (getUserPaymentByAadhar db number) = 404
      /\ forall id doc, db !! id = Some doc ->
                        aadharNumber (identity doc) <> number
  end.
Proof.
  unfold getUserPaymentByAadhar.
  destruct (findByAadhar db number) as [doc|] eqn:E; simpl.
  - destruct (findByAadhar_Some _ _ _ E) as (Hn & Hid). auto.
  - split; [reflexivity|]. apply findByAadhar_None, E.
Qed.

(** When no two stored accounts share an Aadhar number, reading an account
    by its number gives the same answer as reading it by its id. *)
Theorem by_aadhar_agrees_with_by_id (db : gmap string UserPayment.t)
    (id : string) (doc : UserPayment.t) :
  db !! id = Some doc ->
  (forall id' doc',
      db !! id' = Some doc' ->
      aadharNumber (identity doc') = aadharNumber (identity doc) ->
      id' = id) ->
  getUserPaymentByAadhar db (aadharNumber (identity doc))
  = getUserPaymentById db id.
Proof.
  intros Hdb Hunique. unfold getUserPaymentByAadhar, getUserPaymentById.
  rewrite Hdb.
  destruct (findByAadhar db (aadharNumber (identity doc))) as [doc'|] eqn:E.
  - destruct (findByAadhar_Some _ _ _ E) as (Hn & id' & Hdb').
    rewrite (Hunique id' doc' Hdb' Hn) in Hdb'.
    rewrite Hdb in Hdb'. injection Hdb' as <-. reflexivity.
  - exfalso. exact (findByAadhar_None _ _ E id doc Hdb eq_refl).
Qed.

End HandlerProperties.

(** ** Instances of the theorems above *)









Lemma create_rejected_witness :
  createUserPayment utc "acc1" ∅
    (mkCreateBody asha (Some 500%Q) (Some 12%Q) None (Some (ymd 2024 1 1))
       None None [])
  = (∅, json 400 false ErrorMessage None).
Proof.
  apply (create_rejected utc "acc1" ∅).
  right. right. right. left. exists 500%Q. split; reflexivity.
Defined.


Lemma completed_survives_updates_witness :
  exists doc,
    mutateAll utc {["acc1" := paidUpAccount]} raiseTenureThenPay !! "acc1"
    = Some doc
    /\ UserPayment.status doc = completed.
Proof.
  apply (completed_survives_updates utc raiseTenureThenPay
           {["acc1" := paidUpAccount]} "acc1" paidUpAccount).
  - reflexivity.
  - reflexivity.
  - reflexivity.
Defined.

Lemma deleted_account_is_gone_witness :
  reply_payload (snd (deleteUserPayment {["acc1" := freshAccount]} "acc1"))
  = Some freshAccount
  /\ reply_status
       (getUserPaymentById
          (fst (deleteUserPayment {["acc1" := freshAccount]} "acc1")) "acc1")
     = 404.
Proof.
  destruct (deleted_account_is_gone utc {["acc1" := freshAccount]} "acc1"
              freshAccount)
    as (Hdoc & _ & _ & Hread & _).
  - reflexivity.
  - split; [exact Hdoc | exact Hread].
Defined.

Lemma delete_undoes_create_witness :
  fst (deleteUserPayment
         (fst (createUserPayment utc "acc1" ∅ ashaEnrolment)) "acc1")
  = ∅.
Proof.
  apply (delete_undoes_create utc "acc1" ∅ ashaEnrolment).
  - reflexivity.
  - reflexivity.
Defined.

Lemma history_orders_and_partitions_witness :
  exists history,
    getPaymentHistory {["acc1" := januaryPaidAccount]} "acc1"
    = mkReply 200 true None (Some history)
    /\ (totalPaid history + totalPending history = 1)%nat.
Proof.
  destruct (history_orders_and_partitions {["acc1" := januaryPaidAccount]}
              "acc1" januaryPaidAccount)
    as (history & Hreply & _ & _ & _ & _ & Hcount & _).
  - reflexivity.
  - exists history. split; [exact Hreply | exact Hcount].
Defined.

Lemma history_head_is_last_payment_witness :
  exists history first rest,
    reply_payload (getPaymentHistory {["acc1" := januaryPaidAccount]} "acc1")
    = Some history
    /\ paidPayments history = first :: rest
    /\ lastPaymentDate januaryPaidAccount = Some (paymentDate first)
    /\ lengthOf (paidPayments history) = completedMonths januaryPaidAccount.
Proof.
  apply (history_head_is_last_payment utc {["acc1" := januaryPaidAccount]}
           "acc1" januaryPaidAccount).
  - reflexivity.
  - reflexivity.
  - discriminate.
Defined.

Lemma next_due_month_after_completion_refused_witness :
  recordPayment utc (ymd 2024 3 1) {["acc1" := paidUpAccount]} "acc1"
    februaryOnly
  = ({["acc1" := paidUpAccount]},
     json 400 false
       (InvalidMonthNumbers [(completedMonths paidUpAccount + 1)%Q]
          (tenure paidUpAccount)) None).
Proof.
  apply (next_due_month_after_completion_refused utc (ymd 2024 3 1)
           {["acc1" := paidUpAccount]} "acc1" paidUpAccount februaryOnly).
  - reflexivity.
  - vm_compute. discriminate.
  - reflexivity.
Defined.

Lemma completion_percentage_ends_witness :
  PaymentSummary.completionPercentage (getPaymentSummary paidUpAccount)
  = Some "100.00"%string.
Proof.
  destruct (completion_percentage_ends paidUpAccount) as (Hfull & _).
  - vm_compute. discriminate.
  - apply Hfull. reflexivity.
Defined.

Lemma first_month_due_on_startDate_witness :
  dueDateOf utc freshAccount 1%Q = startDate freshAccount.
Proof.
  apply (first_month_due_on_startDate utc freshAccount).
  reflexivity.
Defined.

Lemma due_dates_within_contract_witness :
  startDate freshAccount <= dueDateOf utc freshAccount (inject_Z 5)
  /\ dueDateOf utc freshAccount (inject_Z 5)
     < plusMonths utc (startDate freshAccount) (tenure freshAccount).
Proof.
  destruct (due_dates_within_contract utc freshAccount 12 5)
    as (Hfrom & Hto & _).
  - exists 0. reflexivity.
  - reflexivity.
  - lia.
  - split; [exact Hfrom | exact Hto].
Defined.

Lemma by_aadhar_agrees_with_by_id_witness :
  getUserPaymentByAadhar {["acc1" := freshAccount]} "123456789012"
  = getUserPaymentById {["acc1" := freshAccount]} "acc1".
Proof.
  apply (by_aadhar_agrees_with_by_id {["acc1" := freshAccount]} "acc1"
           freshAccount).
  - reflexivity.
  - intros id' doc' H _. apply lookup_singleton_Some in H as (H & _).
    symmetry. exact H.
Defined.
